(** * TravelGuide AI: the itinerary request flow of [travel.py]

    A shallow embedding of the Streamlit script [Project Files/travel.py]:
    the prompt template of [generate_itinerary], the credential handling of
    [initialize_gemini] and one run of [main] over the session dictionary
    [st.session_state].  User-interface calls and the provider call are
    recorded as events, so that statements about "what the user sees" and
    "was the provider called" are statements about the event log. *)

From Stdlib Require Import ZArith Ascii String List Bool Lia.
From Stdlib Require Import Numbers.DecimalString Numbers.DecimalZ Numbers.DecimalPos.
From stdpp Require Import base option strings gmap.

Open Scope string_scope.
Open Scope list_scope.

(** ** Python strings *)

Module PyStr.

(** Truthiness of a [str]: only the empty string is falsy. *)
Definition truthy (s : string) : bool :=
  match s with
  | EmptyString => false
  | String _ _ => true
  end.

(** Truthiness of an optional [str] ([None] is falsy). *)
Definition truthy_opt (o : option string) : bool :=
  match o with
  | None => false
  | Some s => truthy s
  end.

(** [str(n)] and [f"{n}"] for a Python [int]. *)
Definition of_int (n : Z) : string :=
  NilZero.string_of_int (Z.to_int n).

Definition newline : ascii := "010"%char.

(** [p] is a prefix of [s]: [s.startswith(p)]. *)
Fixpoint startswith (p s : string) : bool :=
  match p, s with
  | EmptyString, _ => true
  | String _ _, EmptyString => false
  | String a p', String b s' => Ascii.eqb a b && startswith p' s'
  end.

(** [p in s]: [p] occurs somewhere in [s]. *)
Fixpoint contains (p s : string) : bool :=
  startswith p s ||
  match s with
  | EmptyString => false
  | String _ s' => contains p s'
  end.

(** [s.split("\n")]: the maximal newline-free pieces of [s]. *)
Fixpoint lines (s : string) : list string :=
  match s with
  | EmptyString => [EmptyString]
  | String c r =>
      if Ascii.eqb c newline then EmptyString :: lines r
      else match lines r with
           | [] => [String c EmptyString]
           | l :: ls => String c l :: ls
           end
  end.

(** ASCII whitespace, as removed by [str.strip()]. *)
Definition is_space (c : ascii) : bool :=
  let n := nat_of_ascii c in
  (Nat.eqb n 32 || (Nat.leb 9 n && Nat.leb n 13) ||
   (Nat.leb 28 n && Nat.leb n 31))%bool.

Fixpoint lstrip (s : string) : string :=
  match s with
  | EmptyString => EmptyString
  | String c r => if is_space c then lstrip r else s
  end.

(** Drops trailing whitespace: a character is kept when something
    non-blank follows it or it is itself non-blank. *)
Fixpoint rstrip (s : string) : string :=
  match s with
  | EmptyString => EmptyString
  | String c r =>
      match rstrip r with
      | EmptyString => if is_space c then EmptyString else String c EmptyString
      | r' => String c r'
      end
  end.

(** [s.strip()]. *)
Definition strip (s : string) : string := rstrip (lstrip s).

(** [all(P(c) for c in s)]. *)
Fixpoint all_chars (P : ascii -> bool) (s : string) : bool :=
  match s with
  | EmptyString => true
  | String c r => P c && all_chars P r
  end.

(** [c not in s]. *)
Definition lacks (c : ascii) (s : string) : bool :=
  all_chars (fun x => negb (Ascii.eqb c x)) s.

(** ["\n" not in s]. *)
Definition single_line (s : string) : bool := lacks newline s.

(** ["\n".join(ls)]. *)
Fixpoint unlines (ls : list string) : string :=
  match ls with
  | [] => EmptyString
  | l :: rest =>
      match rest with
      | [] => l
      | _ :: _ => l +:+ String newline (unlines rest)
      end
  end.

Definition is_digit_or_minus (c : ascii) : bool :=
  let n := nat_of_ascii c in
  (Nat.eqb n 45 || (Nat.leb 48 n && Nat.leb n 57))%bool.

End PyStr.

(** ** The prompt template of [generate_itinerary] (lines 78-97) *)

Definition interests_label : string := "Interests/Preferences:".

(** The inner f-string of line 83,
    [f"Interests/Preferences: {interests}" if interests else ""]. *)
Definition interests_slot (interests : string) : string :=
  if PyStr.truthy interests
  then "Interests/Preferences: " +:+ interests
  else "".

Definition nl : string := String PyStr.newline EmptyString.

(** The triple-quoted f-string, one source line per line below.  Every
    template line, the blank ones included, carries the eight spaces of
    indentation of the source file; the text opens with a newline and ends
    with the indentation of the closing quotes. *)
Definition compose_prompt (destination : string) (days nights : Z)
    (interests : string) : string :=
  nl +:+
  "        Create a detailed and personalized travel itinerary for the following trip:" +:+ nl +:+
  "        " +:+ nl +:+
  "        Destination: " +:+ destination +:+ nl +:+
  "        Duration: " +:+ PyStr.of_int days +:+ " days and " +:+ PyStr.of_int nights +:+ " nights" +:+ nl +:+
  "        " +:+ interests_slot interests +:+ nl +:+
  "        " +:+ nl +:+
  "        Please provide a comprehensive itinerary that includes:" +:+ nl +:+
  "        " +:+ nl +:+
  "        1. **Day-by-Day Schedule**: Break down activities for each day" +:+ nl +:+
  "        2. **Local Attractions**: Must-visit places and hidden gems" +:+ nl +:+
  "        3. **Dining Recommendations**: Local restaurants and cuisine to try" +:+ nl +:+
  "        4. **Accommodation Suggestions**: Areas to stay in" +:+ nl +:+
  "        5. **Transportation Tips**: Getting around the destination" +:+ nl +:+
  "        6. **Budget Estimates**: Approximate costs for activities" +:+ nl +:+
  "        7. **Travel Tips**: Important things to know (weather, customs, safety)" +:+ nl +:+
  "        8. **Best Time to Visit**: Each attraction" +:+ nl +:+
  "        " +:+ nl +:+
  "        Make the itinerary engaging, practical, and well-structured. Include specific timings and realistic schedules." +:+ nl +:+
  "        ".

(** ** The environment of the script *)

(** The outcome of a library call that may raise [Exception(msg)]. *)
Inductive exc (A : Type) : Type :=
| Returns (a : A)
| Raises (msg : string).
Arguments Returns {A} a.
Arguments Raises {A} msg.

(** The provider handle returned by [genai.GenerativeModel(...)].
    [generate_content p] stands for [model.generate_content(p).text]:
    either the reply text, or the exception raised by the call or by the
    [.text] accessor. *)
Record GenerativeModel : Type := {
  generate_content : string -> exc string
}.

(** What one run of the script can observe of the outside world. *)
Record Env : Type := {
  getenv : string -> option string;             (* os.getenv(name) *)
  secrets_get : string -> string -> exc string; (* st.secrets.get(name, default) *)
  configure : string -> exc unit;               (* genai.configure(api_key=...) *)
  new_model : string -> exc GenerativeModel     (* genai.GenerativeModel(name) *)
}.

(** The values returned by the input widgets of the sidebar in one run, and
    by the copy button of the display area. *)
Record Widgets : Type := {
  destination : string;    (* st.text_input("Destination", ...) *)
  days : Z;                (* st.number_input("Days", 1..30, value=5) *)
  nights : Z;              (* st.number_input("Nights", 0..30, value=4) *)
  interests : string;      (* st.text_area("Interests & Preferences (Optional)") *)
  generate_button : bool;  (* st.button("Generate Itinerary") *)
  copy_button : bool       (* st.button("Copy to Clipboard") *)
}.

(** What a run does that is visible from outside: the Streamlit output calls
    and the calls to the provider library. *)
Inductive event : Type :=
| StTitle (body : string)
| StHeader (body : string)
| StMarkdown (body : string)
| StWrite (body : string)
| StError (body : string)
| StInfo (body : string)
| StWarning (body : string)
| StSuccess (body : string)
| StSpinner (text : string)
| StCode (body : string)
| StDownloadButton (label data file_name mime : string)
| GenaiConfigure (api_key : string)
| GenaiModel (name : string)
| GenerateContent (prompt : string).

(** ** The script monad

    A computation reads and writes [st.session_state], emits events, and
    ends normally, by [st.stop()], or with an uncaught exception. *)

Inductive result (A : Type) : Type :=
| Done (a : A)
| Stopped
| Crashed (msg : string).
Arguments Done {A} a.
Arguments Stopped {A}.
Arguments Crashed {A} msg.

Definition Script (A : Type) : Type :=
  gmap string string -> result A * gmap string string * list event.

#[export] Instance script_ret : MRet Script :=
  fun A (a : A) ss => (Done a, ss, []).

#[export] Instance script_bind : MBind Script :=
  fun A B (k : A -> Script B) (m : Script A) ss =>
    match m ss with
    | (Done a, ss1, ev1) =>
        match k a ss1 with
        | (r, ss2, ev2) => (r, ss2, ev1 ++ ev2)
        end
    | (Stopped, ss1, ev1) => (Stopped, ss1, ev1)
    | (Crashed msg, ss1, ev1) => (Crashed msg, ss1, ev1)
    end.

Definition ret {A} (a : A) : Script A := mret a.

Definition emit (e : event) : Script unit := fun ss => (Done tt, ss, [e]).

(** [st.stop()] *)
Definition st_stop {A} : Script A := fun ss => (Stopped, ss, []).

(** [key in st.session_state] *)
Definition session_contains (key : string) : Script bool :=
  fun ss =>
    match ss !! key with
    | Some _ => (Done true, ss, [])
    | None => (Done false, ss, [])
    end.

(** [st.session_state[key]]; a missing key raises [KeyError]. *)
Definition session_read (key : string) : Script string :=
  fun ss =>
    match ss !! key with
    | Some v => (Done v, ss, [])
    | None => (Crashed ("KeyError: " +:+ key), ss, [])  (* uncaught *)
    end.

(** [st.session_state[key] = value] *)
Definition session_write (key value : string) : Script unit :=
  fun ss => (Done tt, <[key := value]> ss, []).

Definition value_of {A} (r : result A * gmap string string * list event) : result A :=
  r.1.1.
Definition session_of {A} (r : result A * gmap string string * list event)
  : gmap string string := r.1.2.
Definition events_of {A} (r : result A * gmap string string * list event)
  : list event := r.2.

(** The prompts handed to the provider, in order. *)
Fixpoint external_calls (evs : list event) : list string :=
  match evs with
  | [] => []
  | GenerateContent p :: rest => p :: external_calls rest
  | _ :: rest => external_calls rest
  end.

(** ** [initialize_gemini] (lines 37-59) *)

Definition api_key_name : string := "GEMINI_API_KEY".
Definition model_name : string := "gemini-2.5-flash".

Definition missing_key_error : string :=
  "⚠️ Gemini API key not found. Please set GEMINI_API_KEY in your environment variables or Streamlit secrets.".
Definition missing_key_info : string :=
  "👉 Get your API key from: https://makersuite.google.com/app/apikey".

(** The [except Exception as e] handler of [initialize_gemini]. *)
Definition init_failed (msg : string) : Script (option GenerativeModel) :=
  emit (StError ("Error initializing Gemini Pro: " +:+ msg)) ;;
  ret None.

(** The part of the [try] body after the key is known. *)
Definition init_with_key (env : Env) (api_key : string)
  : Script (option GenerativeModel) :=
  if negb (PyStr.truthy api_key) then
    emit (StError missing_key_error) ;;
    emit (StInfo missing_key_info) ;;
    ret None
  else
    emit (GenaiConfigure api_key) ;;
    match configure env api_key with
    | Raises msg => init_failed msg
    | Returns _ =>
        emit (GenaiModel model_name) ;;
        match new_model env model_name with
        | Raises msg => init_failed msg
        | Returns model => ret (Some model)
        end
    end.

(** [os.getenv(K) or st.secrets.get(K, "")]: the secrets are consulted only
    when the environment variable is unset or empty, and that lookup can
    itself raise. *)
Definition initialize_gemini (env : Env) : Script (option GenerativeModel) :=
  match getenv env api_key_name with
  | Some k =>
      if PyStr.truthy k then init_with_key env k
      else match secrets_get env api_key_name "" with
           | Raises msg => init_failed msg
           | Returns k' => init_with_key env k'
           end
  | None =>
      match secrets_get env api_key_name "" with
      | Raises msg => init_failed msg
      | Returns k' => init_with_key env k'
      end
  end.

(** ** [generate_itinerary] (lines 62-106) *)

Definition generate_itinerary (model : GenerativeModel)
    (destination : string) (days nights : Z) (interests : string)
  : Script (option string) :=
  let prompt := compose_prompt destination days nights interests in
  emit (GenerateContent prompt) ;;
  match generate_content model prompt with
  | Returns text => ret (Some text)
  | Raises msg =>
      emit (StError ("Error generating itinerary: " +:+ msg)) ;;
      ret None
  end.

(** ** [main] (lines 109-219)

    Layout calls ([st.sidebar], [st.columns]) and the input widgets produce
    no event; the widgets' values are the fields of [Widgets]. *)

(** Lines 162-173: the reaction to the generate button. *)
Definition generation_attempt (model : GenerativeModel) (w : Widgets)
  : Script unit :=
  if generate_button w then
    if negb (PyStr.truthy (destination w)) then
      emit (StWarning "⚠️ Please enter a destination.")
    else
      emit (StSpinner ("✨ Generating your personalized itinerary for "
                       +:+ destination w +:+ "...")) ;;
      itinerary ← generate_itinerary model (destination w) (days w)
                     (nights w) (interests w);
      match itinerary with
      | Some text =>
          if PyStr.truthy text then
            session_write "itinerary" text ;;
            session_write "destination" (destination w)
          else ret tt
      | None => ret tt
      end
  else ret tt.

(** Lines 201-219: the welcome screen. *)
Definition welcome : Script unit :=
  emit (StInfo "👈 Enter your trip details in the sidebar to generate a personalized travel itinerary!") ;;
  emit (StMarkdown "### 🌟 Features") ;;
  emit (StMarkdown "#### 🤖 AI-Powered") ;;
  emit (StWrite "Leveraging Google's Gemini Pro for intelligent itinerary generation") ;;
  emit (StMarkdown "#### 🎯 Personalized") ;;
  emit (StWrite "Tailored recommendations based on your interests and preferences") ;;
  emit (StMarkdown "#### 📱 Easy Export") ;;
  emit (StWrite "Download or copy your itinerary for offline access").

(** Lines 176-219: the display of the stored itinerary. *)
Definition display (w : Widgets) : Script unit :=
  stored ← session_contains "itinerary";
  if (stored : bool) then
    label ← session_read "destination";
    emit (StSuccess ("✅ Your itinerary for **" +:+ label +:+ "** is ready!")) ;;
    emit (StMarkdown "---") ;;
    text ← session_read "itinerary";
    emit (StMarkdown text) ;;
    emit (StMarkdown "---") ;;
    (if copy_button w then
       text ← session_read "itinerary";
       emit (StCode text)
     else ret tt) ;;
    data ← session_read "itinerary";
    label ← session_read "destination";
    emit (StDownloadButton "💾 Download Itinerary" data
            (label +:+ "_itinerary.txt") "text/plain")
  else welcome.

Definition main (env : Env) (w : Widgets) : Script unit :=
  emit (StTitle "✈️ TravelGuide AI") ;;
  emit (StMarkdown "### Your Personalized Travel Itinerary Generator") ;;
  emit (StMarkdown "---") ;;
  model ← initialize_gemini env;
  match model with
  | None => st_stop
  | Some model =>
      emit (StHeader "🗺️ Trip Details") ;;
      emit (StMarkdown "---") ;;
      generation_attempt model w ;;
      display w
  end.

(** ** The session as the specification sees it *)

Record ItineraryResult : Type := {
  text : string;
  label : string
}.

(** What a reader of the session finds (lines 176-181): nothing, a result,
    or a text whose label is missing (reading it raises [KeyError]). *)
Inductive session_view : Type :=
| Absent
| Stored (r : ItineraryResult)
| Unlabelled (text : string).

Definition get (ss : gmap string string) : session_view :=
  match ss !! "itinerary" with
  | None => Absent
  | Some t =>
      match ss !! "destination" with
      | Some d => Stored {| text := t; label := d |}
      | None => Unlabelled t
      end
  end.

(** Lines 172-173. *)
Definition put (r : ItineraryResult) (ss : gmap string string)
  : gmap string string :=
  <["destination" := label r]> (<["itinerary" := text r]> ss).

(** The session states a user can reach: the empty session of a fresh
    browser tab, then any number of runs of [main]. *)
Inductive reachable : gmap string string -> Prop :=
| reachable_start : reachable ∅
| reachable_run env w ss :
    reachable ss -> reachable (session_of (main env w ss)).

(** ** Vocabulary of the properties *)

(** Line 82 of the template, with its indentation. *)
Definition duration_piece (days nights : Z) : string :=
  "        Duration: " +:+ PyStr.of_int days +:+ " days and "
    +:+ PyStr.of_int nights +:+ " nights".

(** The pieces of the template between its newlines, in order. *)
Definition prompt_pieces (destination : string) (days nights : Z)
    (interests : string) : list string :=
  [ "";
    "        Create a detailed and personalized travel itinerary for the following trip:";
    "        ";
    "        Destination: " +:+ destination;
    duration_piece days nights;
    "        " +:+ interests_slot interests;
    "        ";
    "        Please provide a comprehensive itinerary that includes:";
    "        ";
    "        1. **Day-by-Day Schedule**: Break down activities for each day";
    "        2. **Local Attractions**: Must-visit places and hidden gems";
    "        3. **Dining Recommendations**: Local restaurants and cuisine to try";
    "        4. **Accommodation Suggestions**: Areas to stay in";
    "        5. **Transportation Tips**: Getting around the destination";
    "        6. **Budget Estimates**: Approximate costs for activities";
    "        7. **Travel Tips**: Important things to know (weather, customs, safety)";
    "        8. **Best Time to Visit**: Each attraction";
    "        ";
    "        Make the itinerary engaging, practical, and well-structured. Include specific timings and realistic schedules.";
    "        " ].

(** The lines of a prompt that carry the interests label. *)
Definition interests_lines (prompt : string) : list string :=
  List.filter (PyStr.contains interests_label) (PyStr.lines prompt).

(** The file names offered for download, in order. *)
Fixpoint download_names (evs : list event) : list string :=
  match evs with
  | [] => []
  | StDownloadButton _ _ file_name _ :: rest => file_name :: download_names rest
  | _ :: rest => download_names rest
  end.

(** What [main] shows before the client is initialised, and between the
    initialisation and the reaction to the button. *)
Definition page_header : list event :=
  [ StTitle "✈️ TravelGuide AI";
    StMarkdown "### Your Personalized Travel Itinerary Generator";
    StMarkdown "---" ].
Definition sidebar_events : list event :=
  [ StHeader "🗺️ Trip Details"; StMarkdown "---" ].

(** The handle and the messages [initialize_gemini] produces; it neither
    reads nor writes the session, so they are taken at the empty one. *)
Definition init_model (env : Env) : option GenerativeModel :=
  match value_of (initialize_gemini env ∅) with
  | Done o => o
  | _ => None
  end.
Definition init_events (env : Env) : list event :=
  events_of (initialize_gemini env ∅).

(** What the display shows of a stored result. *)
Definition stored_events (copy : bool) (r : ItineraryResult) : list event :=
  [ StSuccess ("✅ Your itinerary for **" +:+ label r +:+ "** is ready!");
    StMarkdown "---"; StMarkdown (text r); StMarkdown "---" ]
  ++ (if copy then [StCode (text r)] else [])
  ++ [ StDownloadButton "💾 Download Itinerary" (text r)
         (label r +:+ "_itinerary.txt") "text/plain" ].

(** What the welcome screen shows. *)
Definition welcome_events : list event := events_of (welcome ∅).

(** The spinner shown while the provider is called (line 166). *)
Definition spinner (w : Widgets) : event :=
  StSpinner ("✨ Generating your personalized itinerary for "
             +:+ destination w +:+ "...").

(** The prompt of a submission. *)
Definition prompt_of (w : Widgets) : string :=
  compose_prompt (destination w) (days w) (nights w) (interests w).

(** Text and label are stored together or not at all. *)
Definition paired (ss : gmap string string) : Prop :=
  is_Some (ss !! "itinerary") <-> is_Some (ss !! "destination").

(** A provider stub answering every prompt with [reply]. *)
Definition stub_model (reply : exc string) : GenerativeModel :=
  {| generate_content := fun _ => reply |}.

(** A configuration whose environment variable holds [key], whose secrets
    store is empty, and whose provider library hands out [stub_model reply]. *)
Definition stub_env (key : option string) (reply : exc string) : Env :=
  {| getenv := fun _ => key;
     secrets_get := fun _ default => Returns default;
     configure := fun _ => Returns tt;
     new_model := fun _ => Returns (stub_model reply) |}.

(** The submission of the example scenario. *)
Definition paris_request : Widgets :=
  {| destination := "Paris, France"; days := 5; nights := 4;
     interests := "history, food";
     generate_button := true; copy_button := false |}.

(** A submission with nothing typed into the destination field. *)
Definition empty_request : Widgets :=
  {| destination := ""; days := 5; nights := 4; interests := "";
     generate_button := true; copy_button := false |}.

(** A submission whose destination is a single blank. *)
Definition blank_request : Widgets :=
  {| destination := " "; days := 5; nights := 4; interests := "";
     generate_button := true; copy_button := false |}.



(** A submission for Paris with no interests. *)
Definition plain_request : Widgets :=
  {| destination := "Paris"; days := 5; nights := 4; interests := "";
     generate_button := true; copy_button := false |}.

(** A session already holding a result. *)
Definition rome_session : gmap string string :=
  put {| text := "Day 1: Colosseum"; label := "Rome" |} ∅.

(** ** Further vocabulary *)

(** Line 43, [os.getenv(K) or st.secrets.get(K, "")]: the key the script
    goes on with, or the exception of the secrets lookup. *)
Definition resolved_key (env : Env) : exc string :=
  match getenv env api_key_name with
  | Some k =>
      if PyStr.truthy k then Returns k else secrets_get env api_key_name ""
  | None => secrets_get env api_key_name ""
  end.

(** The bodies of the [st.error] boxes, in order. *)
Definition errors (evs : list event) : list string :=
  List.flat_map (fun e => match e with StError b => [b] | _ => [] end) evs.

(** The bodies of the [st.warning] boxes, in order. *)
Definition warnings (evs : list event) : list string :=
  List.flat_map (fun e => match e with StWarning b => [b] | _ => [] end) evs.

(** The keys handed to [genai.configure], in order. *)
Definition configure_calls (evs : list event) : list string :=
  List.flat_map (fun e => match e with GenaiConfigure k => [k] | _ => [] end)
    evs.

(** Lines 84-97 of the template: what follows the interests slot. *)
Definition instruction_block : list string :=
  [ "        ";
    "        Please provide a comprehensive itinerary that includes:";
    "        ";
    "        1. **Day-by-Day Schedule**: Break down activities for each day";
    "        2. **Local Attractions**: Must-visit places and hidden gems";
    "        3. **Dining Recommendations**: Local restaurants and cuisine to try";
    "        4. **Accommodation Suggestions**: Areas to stay in";
    "        5. **Transportation Tips**: Getting around the destination";
    "        6. **Budget Estimates**: Approximate costs for activities";
    "        7. **Travel Tips**: Important things to know (weather, customs, safety)";
    "        8. **Best Time to Visit**: Each attraction";
    "        ";
    "        Make the itinerary engaging, practical, and well-structured. Include specific timings and realistic schedules.";
    "        " ].

(** What the display shows of a session, by what a reader finds in it; for
    a text without label the display raises before showing anything. *)
Definition shown (copy : bool) (v : session_view) : list event :=
  match v with
  | Absent => welcome_events
  | Stored r => stored_events copy r
  | Unlabelled _ => []
  end.

(** [int(s)] on a decimal numeral. *)
Definition parse_int (s : string) : option Z :=
  option_map Z.of_int (NilZero.int_of_string s).

(** A session holding a text but no label; the script never produces one. *)
Definition unlabelled_session : gmap string string :=
  {[ "itinerary" := "Day 1: Colosseum" ]}.


(** A page refresh while other things are typed into the form. *)
Definition idle_request : Widgets :=
  {| destination := "Oslo"; days := 2; nights := 1; interests := "fjords";
     generate_button := false; copy_button := true |}.

(** * Properties *)

(** ** Strings *)

(** stdpp freezes [String.append] under [simpl]; the proofs below compute
    with string literals, so it is released again. *)
#[global] Arguments String.append !_ _ / : simpl nomatch.
#[global] Arguments Ascii.eqb : simpl never.

Module PyStrFacts.
Import PyStr.

Lemma append_assoc (a b c : string) : (a +:+ b) +:+ c = a +:+ (b +:+ c).
Proof. induction a as [|x a IH]; simpl; [reflexivity | now rewrite IH]. Qed.

Lemma append_nil_r (a : string) : a +:+ "" = a.
Proof. induction a as [|x a IH]; simpl; [reflexivity | now rewrite IH]. Qed.

Lemma truthy_false (s : string) : truthy s = false <-> s = "".
Proof. destruct s; simpl; split; congruence. Qed.

Lemma truthy_true (s : string) : truthy s = true <-> s <> "".
Proof. destruct s; simpl; split; congruence. Qed.

Lemma startswith_app (p a b : string) :
  startswith p a = true -> startswith p (a +:+ b) = true.
Proof.
  revert a; induction p as [|x p IH]; intros [|y a]; simpl; try congruence.
  intros [-> H]%andb_prop. rewrite (IH _ H). reflexivity.
Qed.

Lemma startswith_refl_app (p s : string) : startswith p (p +:+ s) = true.
Proof.
  induction p as [|x p IH]; simpl; [reflexivity|].
  now rewrite Ascii.eqb_refl, IH.
Qed.

Lemma contains_app_l (p a b : string) :
  contains p a = true -> contains p (a +:+ b) = true.
Proof.
  induction a as [|y a IH]; simpl.
  - rewrite orb_false_r. intros H.
    destruct p; [destruct b; reflexivity | discriminate].
  - intros [H|H]%orb_prop.
    + apply (startswith_app _ _ b) in H. simpl in H. now rewrite H.
    + rewrite (IH H). apply orb_true_r.
Qed.

Lemma contains_app_r (p a b : string) :
  contains p b = true -> contains p (a +:+ b) = true.
Proof.
  intros H. induction a as [|y a IH]; simpl; [exact H|].
  rewrite IH. apply orb_true_r.
Qed.

(** *** Characters *)

Lemma all_chars_app (P : ascii -> bool) (a b : string) :
  all_chars P (a +:+ b) = all_chars P a && all_chars P b.
Proof.
  induction a as [|x a IH]; simpl; [reflexivity|].
  now rewrite IH, andb_assoc.
Qed.

Lemma all_chars_impl (P Q : ascii -> bool) (s : string) :
  (forall c, P c = true -> Q c = true) ->
  all_chars P s = true -> all_chars Q s = true.
Proof.
  intros HPQ. induction s as [|x s IH]; simpl; [reflexivity|].
  intros [Hx Hs]%andb_prop. now rewrite (HPQ _ Hx), IH.
Qed.

Lemma lacks_app (c : ascii) (a b : string) :
  lacks c (a +:+ b) = lacks c a && lacks c b.
Proof. apply all_chars_app. Qed.

(** A pattern cannot occur in a text that lacks its first character. *)
Lemma contains_lacks_head (c : ascii) (p a s : string) :
  lacks c a = true ->
  contains (String c p) (a +:+ s) = contains (String c p) s.
Proof.
  induction a as [|x a IH]; simpl; [reflexivity|].
  intros [Hx Ha]%andb_prop. rewrite (IH Ha).
  apply negb_true_iff in Hx. now rewrite Hx.
Qed.

Lemma lacks_not_contains (c : ascii) (p a : string) :
  lacks c a = true -> contains (String c p) a = false.
Proof.
  intros H. rewrite <- (append_nil_r a).
  now rewrite (contains_lacks_head c p a "" H).
Qed.

(** *** Decimal numerals *)

Lemma uint_chars (d : Decimal.uint) :
  all_chars is_digit_or_minus (NilEmpty.string_of_uint d) = true.
Proof. induction d; simpl; auto. Qed.

Lemma of_int_chars (n : Z) : all_chars is_digit_or_minus (of_int n) = true.
Proof.
  unfold of_int, NilZero.string_of_int, NilZero.string_of_uint.
  destruct (Z.to_int n) as [d|d]; destruct d; simpl; auto using uint_chars.
Qed.

Lemma of_int_lacks (c : ascii) (n : Z) :
  is_digit_or_minus c = false -> lacks c (of_int n) = true.
Proof.
  intros Hc. apply (all_chars_impl is_digit_or_minus); [|apply of_int_chars].
  intros x Hx. apply negb_true_iff.
  destruct (Ascii.eqb_spec c x) as [->|]; congruence.
Qed.

(** *** Lines *)

Lemma lines_nonempty (s : string) : lines s <> [].
Proof.
  induction s as [|c s IH]; simpl; [discriminate|].
  destruct (Ascii.eqb c newline); [discriminate|].
  destruct (lines s); discriminate.
Qed.

Lemma lines_single (s : string) : single_line s = true -> lines s = [s].
Proof.
  unfold single_line, lacks.
  induction s as [|c s IH]; simpl; [reflexivity|].
  intros [Hc Hs]%andb_prop. apply negb_true_iff in Hc.
  rewrite Ascii.eqb_sym, Hc, (IH Hs). reflexivity.
Qed.

(** A newline separates: the lines on its two sides do not interact. *)
Lemma lines_newline (a b : string) :
  lines (a +:+ String newline b) = lines a ++ lines b.
Proof.
  induction a as [|c a IH]; simpl; [reflexivity|].
  rewrite IH. destruct (Ascii.eqb c newline); [reflexivity|].
  pose proof (lines_nonempty a).
  destruct (lines a) as [|l ls]; [congruence | reflexivity].
Qed.

(** A newline-free prefix only lengthens the first line. *)
Lemma lines_prepend (p s : string) :
  single_line p = true ->
  lines (p +:+ s) = (p +:+ hd "" (lines s)) :: tl (lines s).
Proof.
  unfold single_line, lacks.
  induction p as [|c p IH]; simpl.
  - intros _. pose proof (lines_nonempty s).
    destruct (lines s); [congruence | reflexivity].
  - intros [Hc Hp]%andb_prop. apply negb_true_iff in Hc.
    rewrite Ascii.eqb_sym, Hc, (IH Hp). reflexivity.
Qed.

Lemma lines_unlines (ls : list string) :
  ls <> [] -> lines (unlines ls) = concat (map lines ls).
Proof.
  induction ls as [|l rest IH]; [congruence|]. intros _.
  destruct rest as [|l' rest].
  - simpl. now rewrite app_nil_r.
  - change (unlines (l :: l' :: rest))
      with (l +:+ String newline (unlines (l' :: rest))).
    rewrite lines_newline, IH by discriminate. reflexivity.
Qed.

(** The first line of a text is a prefix of it. *)
Lemma lines_hd_prefix (s : string) : exists rest, s = hd "" (lines s) +:+ rest.
Proof.
  induction s as [|c s [rest IH]]; simpl; [now exists ""|].
  destruct (Ascii.eqb c newline).
  - now exists (String c s).
  - pose proof (lines_nonempty s).
    destruct (lines s) as [|l ls]; [congruence|].
    simpl in *. exists rest. now rewrite <- IH.
Qed.

(** A pattern that does not occur in a text occurs in none of its lines. *)
Lemma contains_lines (p s : string) :
  p <> "" -> contains p s = false ->
  Forall (fun l => contains p l = false) (lines s).
Proof.
  intros Hp. induction s as [|c s IH]; simpl.
  - intros H. constructor; [|constructor]. exact H.
  - intros [Hs Hc]%orb_false_elim. specialize (IH Hc).
    destruct (Ascii.eqb c newline).
    + constructor; [|exact IH]. destruct p; [congruence | reflexivity].
    + pose proof (lines_nonempty s) as Hne.
      destruct (lines_hd_prefix s) as [rest Hrest].
      destruct (lines s) as [|l ls]; [congruence|].
      apply Forall_cons_iff in IH as [Hl Hls]. constructor; [|exact Hls].
      simpl in Hrest |- *. rewrite Hl, orb_false_r.
      destruct (startswith p (String c l)) eqn:E; [|reflexivity].
      apply (startswith_app _ _ rest) in E. simpl in E.
      rewrite <- Hrest in E. simpl in Hs. congruence.
Qed.

Lemma contains_refl (p : string) : contains p p = true.
Proof.
  assert (H : startswith p p = true)
    by (induction p as [|c p IH]; simpl; [|rewrite Ascii.eqb_refl]; auto).
  destruct p; simpl in *; [reflexivity | now rewrite H].
Qed.

(** *** Trimming *)

Lemma lstrip_suffix (s : string) : exists a, s = a +:+ lstrip s.
Proof.
  induction s as [|c s [a IH]]; simpl; [now exists ""|].
  destruct (is_space c); [|now exists ""].
  exists (String c a). simpl. now rewrite <- IH.
Qed.

Lemma rstrip_prefix (s : string) : exists b, s = rstrip s +:+ b.
Proof.
  induction s as [|c s [b IH]]; simpl; [now exists ""|].
  destruct (rstrip s) as [|c' r'] eqn:E.
  - destruct (is_space c); [now exists (String c s)|].
    exists b. simpl in *. now rewrite <- IH.
  - exists b. simpl in *. now rewrite <- IH.
Qed.

(** The trimmed text is a piece of the text. *)
Lemma strip_contained (s : string) : contains (strip s) s = true.
Proof.
  unfold strip.
  destruct (lstrip_suffix s) as [a Ha].
  destruct (rstrip_prefix (lstrip s)) as [b Hb].
  generalize dependent (rstrip (lstrip s)); intros x Hb.
  generalize dependent (lstrip s); intros t Ha ->.
  rewrite Ha. apply contains_app_r, contains_app_l, contains_refl.
Qed.

Lemma filter_none {A} (f : A -> bool) (l : list A) :
  Forall (fun x => f x = false) l -> List.filter f l = [].
Proof.
  induction 1 as [|x l Hx Hl IH]; [reflexivity|].
  simpl. now rewrite Hx, IH.
Qed.

End PyStrFacts.

(** ** The prompt *)

(** Evaluates [lines] and [contains] on the literal pieces of the template. *)
Ltac eval_literals :=
  repeat match goal with
    | |- context [PyStr.lines ?s] =>
        is_ground s;
        let r := eval vm_compute in (PyStr.lines s) in
        change (PyStr.lines s) with r
    | |- context [PyStr.contains ?p ?s] =>
        is_ground p; is_ground s;
        let r := eval vm_compute in (PyStr.contains p s) in
        change (PyStr.contains p s) with r
    end.

Section Prompt.
Import PyStr PyStrFacts.

Variables (destination : string) (days nights : Z) (interests : string).

Lemma compose_prompt_pieces :
  compose_prompt destination days nights interests
  = unlines (prompt_pieces destination days nights interests).
Proof.
  unfold compose_prompt, prompt_pieces, duration_piece, nl.
  cbn [unlines]. rewrite !append_assoc. reflexivity.
Qed.

Lemma duration_single_line : single_line (duration_piece days nights) = true.
Proof.
  unfold duration_piece, single_line.
  rewrite !lacks_app, !(of_int_lacks newline) by reflexivity. reflexivity.
Qed.

Lemma duration_label_free :
  contains interests_label (duration_piece days nights) = false.
Proof.
  apply (lacks_not_contains "I" "nterests/Preferences:").
  unfold duration_piece.
  rewrite !lacks_app, !(of_int_lacks "I") by reflexivity. reflexivity.
Qed.

Lemma destination_label_free :
  contains interests_label destination = false ->
  contains interests_label ("        Destination: " +:+ destination) = false.
Proof.
  intros H.
  etransitivity; [|exact H].
  now apply (contains_lacks_head "I" "nterests/Preferences:").
Qed.

(** The lines of the slot of line 83, with its indentation. *)
Lemma slot_lines :
  lines ("        " +:+ interests_slot interests)
  = if truthy interests
    then ("        Interests/Preferences: " +:+ hd "" (lines interests))
           :: tl (lines interests)
    else ["        "].
Proof.
  unfold interests_slot. destruct (truthy interests); [|reflexivity].
  rewrite <- append_assoc.
  change ("        " +:+ "Interests/Preferences: ")
    with "        Interests/Preferences: ".
  now rewrite lines_prepend.
Qed.

(** With a one-line destination, the prompt has the template's lines, the
    interests (possibly several lines of them) in the sixth place. *)
Lemma prompt_lines :
  single_line destination = true ->
  lines (compose_prompt destination days nights interests)
  = [ "";
      "        Create a detailed and personalized travel itinerary for the following trip:";
      "        ";
      "        Destination: " +:+ destination;
      duration_piece days nights ]
    ++ lines ("        " +:+ interests_slot interests)
    ++ [ "        ";
         "        Please provide a comprehensive itinerary that includes:";
         "        ";
         "        1. **Day-by-Day Schedule**: Break down activities for each day";
         "        2. **Local Attractions**: Must-visit places and hidden gems";
         "        3. **Dining Recommendations**: Local restaurants and cuisine to try";
         "        4. **Accommodation Suggestions**: Areas to stay in";
         "        5. **Transportation Tips**: Getting around the destination";
         "        6. **Budget Estimates**: Approximate costs for activities";
         "        7. **Travel Tips**: Important things to know (weather, customs, safety)";
         "        8. **Best Time to Visit**: Each attraction";
         "        ";
         "        Make the itinerary engaging, practical, and well-structured. Include specific timings and realistic schedules.";
         "        " ].
Proof.
  intros Hd.
  rewrite compose_prompt_pieces, lines_unlines by discriminate.
  unfold prompt_pieces. cbn [map concat].
  rewrite (lines_single _ duration_single_line).
  rewrite (lines_single ("        Destination: " +:+ destination)).
  2:{ unfold single_line in *. now rewrite lacks_app, Hd. }
  generalize (lines ("        " +:+ interests_slot interests)); intros sl.
  eval_literals. reflexivity.
Qed.

(** No line of the interests text beyond those carrying the label. *)
Lemma interests_lines_prompt :
  single_line destination = true ->
  contains interests_label destination = false ->
  interests_lines (compose_prompt destination days nights interests)
  = List.filter (contains interests_label)
      (lines ("        " +:+ interests_slot interests)).
Proof.
  intros Hd Hl. unfold interests_lines. rewrite (prompt_lines Hd).
  rewrite !List.filter_app.
  generalize (lines ("        " +:+ interests_slot interests)); intros sl.
  cbn [List.filter].
  rewrite (destination_label_free Hl), duration_label_free.
  eval_literals. cbn [app]. now rewrite app_nil_r.
Qed.

Lemma startswith_contains (p s : string) :
  startswith p s = true -> contains p s = true.
Proof. intros H. destruct s; simpl; now rewrite H. Qed.

(** Whatever is put in the slot is in the prompt, character for character. *)
Lemma slot_in_prompt :
  contains (interests_slot interests)
    (compose_prompt destination days nights interests) = true.
Proof.
  unfold compose_prompt.
  repeat lazymatch goal with
    | |- contains _ (interests_slot _ +:+ _) = true => fail
    | |- contains _ (_ +:+ _) = true => apply contains_app_r
    end.
  apply contains_app_l, startswith_contains.
  rewrite <- (append_nil_r (interests_slot interests)) at 2.
  apply startswith_refl_app.
Qed.

(** C2 (as amended): the interests are tested for emptiness and inserted
    untrimmed.  For a one-line destination, with the label occurring
    neither in the destination nor in the interests: when the interests
    field is the empty string no line of the prompt carries the label
    [Interests/Preferences:]; when it is any non-empty string, blank ones
    included, exactly one line carries the label, namely the indented label
    followed by the first line of the interests, and the prompt contains
    the label followed by the whole interests text verbatim; when that
    text is a single line, the one label line holds all of it, and so
    holds the trimmed text. *)
Theorem interests_line_policy :
  single_line destination = true ->
  contains interests_label destination = false ->
  contains interests_label interests = false ->
  (interests = "" ->
     interests_lines (compose_prompt destination days nights interests) = [])
  /\
  (interests <> "" ->
     interests_lines (compose_prompt destination days nights interests)
     = ["        Interests/Preferences: " +:+ hd "" (lines interests)]
     /\ contains ("Interests/Preferences: " +:+ interests)
          (compose_prompt destination days nights interests) = true
     /\ (single_line interests = true ->
           interests_lines (compose_prompt destination days nights interests)
           = ["        Interests/Preferences: " +:+ interests]
           /\ contains (strip interests)
                ("        Interests/Preferences: " +:+ interests) = true)).
Proof.
  intros Hd Hld Hli. rewrite (interests_lines_prompt Hd Hld), slot_lines.
  split.
  - intros ->. reflexivity.
  - intros Hne. apply truthy_true in Hne.
    pose proof slot_in_prompt as Hslot. unfold interests_slot in Hslot.
    rewrite Hne in *.
    assert (Hone : List.filter (contains interests_label)
                     (("        Interests/Preferences: "
                         +:+ hd "" (lines interests))
                        :: tl (lines interests))
                   = ["        Interests/Preferences: "
                        +:+ hd "" (lines interests)]).
    { cbn [List.filter].
      rewrite (contains_app_l interests_label
                 "        Interests/Preferences: " _ eq_refl).
      f_equal. apply filter_none.
      assert (Hall : Forall (fun l => contains interests_label l = false)
                       (lines interests))
        by (apply contains_lines; [discriminate | exact Hli]).
      destruct (lines interests); [constructor|].
      now apply Forall_cons_iff in Hall as [_ Hall]. }
    split; [exact Hone|]. split; [exact Hslot|].
    intros Hsl. rewrite Hone, (lines_single _ Hsl). split; [reflexivity|].
    apply contains_app_r, strip_contained.
Qed.

(** C7: composing the prompt is a function of the four request fields
    alone.  Two runs on equal fields produce the same prompt, whatever the
    provider handle and the session are; each run hands exactly that
    prompt to the provider, once, and leaves the session as it was. *)
Theorem prompt_deterministic
    (destination' : string) (days' nights' : Z) (interests' : string)
    (m m' : GenerativeModel) (ss ss' : gmap string string) :
  destination = destination' -> days = days' -> nights = nights' ->
  interests = interests' ->
  compose_prompt destination days nights interests
  = compose_prompt destination' days' nights' interests'
  /\ external_calls
       (events_of (generate_itinerary m destination days nights interests ss))
     = [compose_prompt destination days nights interests]
  /\ external_calls
       (events_of
          (generate_itinerary m' destination' days' nights' interests' ss'))
     = [compose_prompt destination days nights interests]
  /\ session_of (generate_itinerary m destination days nights interests ss)
     = ss
  /\ session_of
       (generate_itinerary m' destination' days' nights' interests' ss')
     = ss'.
Proof.
  intros <- <- <- <-. split; [reflexivity|].
  unfold generate_itinerary.
  set (prompt := compose_prompt destination days nights interests).
  destruct (generate_content m prompt), (generate_content m' prompt);
    repeat split; reflexivity.
Qed.

End Prompt.

(** The policy at a two-line interests text. *)
Lemma interests_line_policy_witness :
  interests_lines (compose_prompt "Paris" 5 4 "food
museums")
  = ["        Interests/Preferences: food"]
  /\ interests_lines (compose_prompt "Paris" 5 4 "") = [].
Proof.
  split.
  - apply (interests_line_policy "Paris" 5 4 "food
museums"); [reflexivity | reflexivity | reflexivity | discriminate].
  - apply (interests_line_policy "Paris" 5 4 "");
      [reflexivity | reflexivity | reflexivity | reflexivity].
Defined.

(** C2 fails as stated: interests consisting of one blank are empty after
    trimming, yet the prompt gets a label line for them. *)
Lemma blank_interests_counterexample :
  PyStr.strip " " = ""
  /\ interests_lines (compose_prompt "Paris" 5 4 " ")
     = ["        Interests/Preferences:  "]
  /\ interests_lines (compose_prompt "Paris" 5 4 " ") <> [].
Proof. split; [reflexivity|]. split; [reflexivity | discriminate]. Qed.

(** Two runs on the same request, against different providers and sessions. *)
Lemma prompt_deterministic_witness :
  external_calls
    (events_of
       (generate_itinerary (stub_model (Returns "Day 1: ..."))
          "Paris, France" 5 4 "history, food" ∅))
  = external_calls
      (events_of
         (generate_itinerary (stub_model (Raises "503"))
            "Paris, France" 5 4 "history, food" rome_session)).
Proof.
  pose proof (prompt_deterministic "Paris, France" 5 4 "history, food"
                "Paris, France" 5 4 "history, food"
                (stub_model (Returns "Day 1: ...")) (stub_model (Raises "503"))
                ∅ rome_session eq_refl eq_refl eq_refl eq_refl)
    as (_ & H1 & H2 & _).
  exact (eq_trans H1 (eq_sym H2)).
Defined.

(** ** One run of the script *)

Section Flow.
Import PyStr PyStrFacts.

Lemma external_calls_app (a b : list event) :
  external_calls (a ++ b) = external_calls a ++ external_calls b.
Proof.
  induction a as [|e a IH]; [reflexivity|].
  destruct e; simpl; now rewrite IH.
Qed.

(** *** Initialisation *)

Lemma init_with_key_run (env : Env) (k : string) (ss : gmap string string) :
  init_with_key env k ss
  = (Done (match value_of (init_with_key env k ∅) with
           | Done o => o
           | _ => None
           end),
     ss, events_of (init_with_key env k ∅)).
Proof.
  unfold init_with_key.
  destruct (truthy k); [|reflexivity]. simpl.
  destruct (configure env k); [|reflexivity].
  destruct (new_model env model_name); reflexivity.
Qed.

Lemma initialize_gemini_run (env : Env) (ss : gmap string string) :
  initialize_gemini env ss = (Done (init_model env), ss, init_events env).
Proof.
  unfold init_model, init_events, initialize_gemini.
  destruct (getenv env api_key_name) as [k|]; [destruct (truthy k)|];
    try destruct (secrets_get env api_key_name "");
    (apply init_with_key_run || reflexivity).
Qed.

Lemma init_with_key_no_call (env : Env) (k : string) :
  external_calls (events_of (init_with_key env k ∅)) = [].
Proof.
  unfold init_with_key.
  destruct (truthy k); [|reflexivity]. simpl.
  destruct (configure env k); [|reflexivity].
  destruct (new_model env model_name); reflexivity.
Qed.

Lemma init_no_call (env : Env) : external_calls (init_events env) = [].
Proof.
  unfold init_events, initialize_gemini.
  destruct (getenv env api_key_name) as [k|]; [destruct (truthy k)|];
    try destruct (secrets_get env api_key_name "");
    (apply init_with_key_no_call || reflexivity).
Qed.

(** *** The reaction to the button (lines 162-173) *)

Variables (m : GenerativeModel) (w : Widgets) (ss : gmap string string).

Lemma attempt_idle :
  generate_button w = false -> generation_attempt m w ss = (Done tt, ss, []).
Proof. unfold generation_attempt. now intros ->. Qed.

Lemma attempt_rejected :
  generate_button w = true -> destination w = "" ->
  generation_attempt m w ss
  = (Done tt, ss, [StWarning "⚠️ Please enter a destination."]).
Proof. unfold generation_attempt. now intros -> ->. Qed.

Lemma attempt_failed (msg : string) :
  generate_button w = true -> destination w <> "" ->
  generate_content m (prompt_of w) = Raises msg ->
  generation_attempt m w ss
  = (Done tt, ss,
     [spinner w; GenerateContent (prompt_of w);
      StError ("Error generating itinerary: " +:+ msg)]).
Proof.
  unfold generation_attempt, generate_itinerary, prompt_of, spinner.
  intros -> Hd%truthy_true Hm. rewrite Hd. simpl.
  unfold mbind, script_bind. simpl. now rewrite Hm.
Qed.

Lemma attempt_empty_reply :
  generate_button w = true -> destination w <> "" ->
  generate_content m (prompt_of w) = Returns "" ->
  generation_attempt m w ss
  = (Done tt, ss, [spinner w; GenerateContent (prompt_of w)]).
Proof.
  unfold generation_attempt, generate_itinerary, prompt_of, spinner.
  intros -> Hd%truthy_true Hm. rewrite Hd. simpl.
  unfold mbind, script_bind. simpl. now rewrite Hm.
Qed.

Lemma attempt_succeeded (reply : string) :
  generate_button w = true -> destination w <> "" ->
  generate_content m (prompt_of w) = Returns reply -> reply <> "" ->
  generation_attempt m w ss
  = (Done tt, put {| text := reply; label := destination w |} ss,
     [spinner w; GenerateContent (prompt_of w)]).
Proof.
  unfold generation_attempt, generate_itinerary, prompt_of, spinner.
  intros -> Hd%truthy_true Hm Hr%truthy_true. rewrite Hd. simpl.
  unfold mbind, script_bind. simpl. rewrite Hm. simpl. now rewrite Hr.
Qed.

(** An attempt ends normally, calls the provider at most once and only
    with the prompt of the submission, and either leaves the session alone
    or puts a non-empty reply with the submitted destination. *)
Lemma attempt_cases :
  value_of (generation_attempt m w ss) = Done tt
  /\ (external_calls (events_of (generation_attempt m w ss)) = []
      \/ external_calls (events_of (generation_attempt m w ss))
         = [prompt_of w])
  /\ (session_of (generation_attempt m w ss) = ss
      \/ exists reply,
          reply <> "" /\ destination w <> ""
          /\ generate_content m (prompt_of w) = Returns reply
          /\ session_of (generation_attempt m w ss)
             = put {| text := reply; label := destination w |} ss).
Proof.
  destruct (generate_button w) eqn:Hb; [|rewrite (attempt_idle Hb); auto].
  destruct (String.eqb_spec (destination w) "") as [Hd|Hd];
    [rewrite (attempt_rejected Hb Hd); auto|].
  destruct (generate_content m (prompt_of w)) as [reply|msg] eqn:Hm;
    [|rewrite (attempt_failed _ Hb Hd Hm); auto].
  destruct (String.eqb_spec reply "") as [->|Hr];
    [rewrite (attempt_empty_reply Hb Hd Hm); auto|].
  rewrite (attempt_succeeded _ Hb Hd Hm Hr).
  split; [reflexivity|]. split; [now right|]. right. now exists reply.
Qed.

(** *** The display (lines 176-219) *)

Lemma display_absent :
  get ss = Absent -> display w ss = (Done tt, ss, welcome_events).
Proof.
  unfold get, display, session_contains, mbind, script_bind. cbn beta.
  destruct (ss !! "itinerary"); [destruct (ss !! "destination")|];
    try discriminate.
  reflexivity.
Qed.

Lemma display_stored (r : ItineraryResult) :
  get ss = Stored r ->
  display w ss = (Done tt, ss, stored_events (copy_button w) r).
Proof.
  unfold get, display, session_contains, session_read, mbind, script_bind.
  cbn beta.
  destruct (ss !! "itinerary") as [t|] eqn:Ht; [|discriminate].
  destruct (ss !! "destination") as [d|] eqn:Hd; [|discriminate].
  intros [= <-]. unfold emit, ret, mret, script_ret, stored_events.
  destruct (copy_button w);
    repeat (lazy beta iota; rewrite ?Ht, ?Hd); reflexivity.
Qed.

Lemma display_unlabelled (t : string) :
  get ss = Unlabelled t ->
  display w ss = (Crashed "KeyError: destination", ss, []).
Proof.
  unfold get, display, session_contains, session_read, mbind, script_bind.
  cbn beta.
  destruct (ss !! "itinerary") as [t'|]; [|discriminate].
  destruct (ss !! "destination") as [d|] eqn:Hd; [discriminate|].
  intros _. reflexivity.
Qed.

Lemma get_put (r : ItineraryResult) : get (put r ss) = Stored r.
Proof.
  unfold get, put.
  rewrite lookup_insert_ne, !lookup_insert_eq by discriminate.
  now destruct r.
Qed.

Lemma display_session : session_of (display w ss) = ss.
Proof.
  destruct (get ss) as [|r|t] eqn:Hg.
  - now rewrite (display_absent Hg).
  - now rewrite (display_stored _ Hg).
  - now rewrite (display_unlabelled _ Hg).
Qed.

Lemma display_no_call : external_calls (events_of (display w ss)) = [].
Proof.
  destruct (get ss) as [|r|t] eqn:Hg.
  - now rewrite (display_absent Hg).
  - rewrite (display_stored _ Hg). now destruct (copy_button w).
  - now rewrite (display_unlabelled _ Hg).
Qed.

End Flow.

(** ** The whole run *)

Section Main.
Import PyStr PyStrFacts.

Variables (env : Env) (w : Widgets) (ss : gmap string string).

(** Without a client the script stops before the sidebar is drawn. *)
Lemma main_stopped :
  init_model env = None ->
  main env w ss = (Stopped, ss, page_header ++ init_events env).
Proof.
  intros Hm. unfold main, mbind, script_bind, emit. lazy beta iota.
  rewrite initialize_gemini_run, Hm. lazy beta iota.
  unfold st_stop. now rewrite app_nil_r.
Qed.

(** With a client, the run is the reaction to the button followed by the
    display of whatever the session then holds. *)
Lemma main_running (m : GenerativeModel) :
  init_model env = Some m ->
  main env w ss
  = (value_of (display w (session_of (generation_attempt m w ss))),
     session_of (generation_attempt m w ss),
     page_header ++ init_events env ++ sidebar_events
       ++ events_of (generation_attempt m w ss)
       ++ events_of (display w (session_of (generation_attempt m w ss)))).
Proof.
  intros Hm. unfold main, mbind, script_bind, emit. lazy beta iota.
  rewrite initialize_gemini_run, Hm. lazy beta iota.
  destruct (attempt_cases m w ss) as (Hv & _ & _).
  destruct (generation_attempt m w ss) as [[r1 s1] e1].
  unfold value_of, session_of, events_of in *. cbn [fst snd] in *.
  subst r1. lazy beta iota.
  pose proof (display_session w s1) as Hs.
  destruct (display w s1) as [[r2 s2] e2].
  unfold session_of in Hs. cbn [fst snd] in *. subst s2. reflexivity.
Qed.

Lemma main_succeeded (m : GenerativeModel) (reply : string) :
  init_model env = Some m ->
  generate_button w = true -> destination w <> "" ->
  generate_content m (prompt_of w) = Returns reply -> reply <> "" ->
  main env w ss
  = (Done tt, put {| text := reply; label := destination w |} ss,
     page_header ++ init_events env ++ sidebar_events
       ++ [spinner w; GenerateContent (prompt_of w)]
       ++ stored_events (copy_button w)
            {| text := reply; label := destination w |}).
Proof.
  intros Hm Hb Hd Hg Hr.
  rewrite (main_running _ Hm), (attempt_succeeded m w ss reply Hb Hd Hg Hr).
  unfold session_of, events_of, value_of. cbn [fst snd].
  now rewrite (display_stored w _ _ (get_put _ _)).
Qed.

Lemma main_session :
  session_of (main env w ss) = ss
  \/ exists m reply,
       init_model env = Some m /\ reply <> "" /\ destination w <> ""
       /\ generate_content m (prompt_of w) = Returns reply
       /\ session_of (main env w ss)
          = put {| text := reply; label := destination w |} ss.
Proof.
  destruct (init_model env) as [m|] eqn:Hm;
    [|rewrite (main_stopped Hm); now left].
  rewrite (main_running _ Hm). unfold session_of at 1 3. simpl.
  destruct (attempt_cases m w ss) as (_ & _ & [H|(reply & ? & ? & ? & ?)]);
    [now left|].
  right. now exists m, reply.
Qed.

Lemma main_calls :
  external_calls (events_of (main env w ss))
  = match init_model env with
    | Some m => external_calls (events_of (generation_attempt m w ss))
    | None => []
    end.
Proof.
  destruct (init_model env) as [m|] eqn:Hm.
  - rewrite (main_running _ Hm). unfold events_of at 1. cbn [snd].
    rewrite !external_calls_app, init_no_call, display_no_call.
    now rewrite app_nil_r.
  - rewrite (main_stopped Hm). unfold events_of. cbn [snd].
    now rewrite external_calls_app, init_no_call.
Qed.

End Main.

(** ** Validation of the destination *)

(** C1 (as amended): a submission whose destination is the empty string is
    rejected before any provider call: the run makes no call, leaves the
    session as it was and, when a client is available and the button was
    pressed, shows the warning in place of the attempt.  Destinations are
    not trimmed, so this says nothing of blank ones. *)
Theorem empty_destination_rejected (env : Env) (w : Widgets)
    (ss : gmap string string) :
  destination w = "" ->
  external_calls (events_of (main env w ss)) = []
  /\ session_of (main env w ss) = ss
  /\ (forall m, init_model env = Some m -> generate_button w = true ->
        events_of (main env w ss)
        = page_header ++ init_events env ++ sidebar_events
            ++ [StWarning "⚠️ Please enter a destination."]
            ++ events_of (display w ss)).
Proof.
  intros Hd. split; [|split].
  - rewrite main_calls. destruct (init_model env) as [m|]; [|reflexivity].
    destruct (generate_button w) eqn:Hb.
    + now rewrite (attempt_rejected m w ss Hb Hd).
    + now rewrite (attempt_idle m w ss Hb).
  - destruct (main_session env w ss) as [H|(m & reply & _ & _ & Hne & _)];
      [exact H | contradiction].
  - intros m Hm Hb.
    now rewrite (main_running _ _ _ _ Hm), (attempt_rejected m w ss Hb Hd).
Qed.

Lemma empty_destination_rejected_witness :
  external_calls
    (events_of (main (stub_env (Some "k") (Returns "Day 1: ...")) empty_request ∅))
  = []
  /\ In (StWarning "⚠️ Please enter a destination.")
       (events_of
          (main (stub_env (Some "k") (Returns "Day 1: ...")) empty_request ∅)).
Proof.
  destruct (empty_destination_rejected
              (stub_env (Some "k") (Returns "Day 1: ...")) empty_request ∅
              eq_refl) as (Hcalls & _ & Hev).
  split; [exact Hcalls|].
  rewrite (Hev (stub_model (Returns "Day 1: ...")) eq_refl eq_refl).
  apply in_or_app; right. apply in_or_app; right.
  apply in_or_app; right. left. reflexivity.
Defined.

(** C1 fails as stated: a destination of one blank is empty after trimming,
    yet the provider is called, with a prompt for that blank destination. *)
Lemma blank_destination_counterexample :
  PyStr.strip (destination blank_request) = ""
  /\ external_calls
       (events_of
          (main (stub_env (Some "k") (Returns "Day 1: ...")) blank_request ∅))
     = [compose_prompt " " 5 4 ""]
  /\ external_calls
       (events_of
          (main (stub_env (Some "k") (Returns "Day 1: ...")) blank_request ∅))
     <> [].
Proof.
  split; [reflexivity|]. split; [vm_compute; reflexivity|].
  vm_compute. discriminate.
Qed.

(** ** The credential *)




(** When the secrets lookup itself raises, the run still stops without a
    provider call, but what the user sees is the initialisation error. *)
Lemma secrets_failure_stops (env : Env) (w : Widgets)
    (ss : gmap string string) (msg : string) :
  PyStr.truthy_opt (getenv env api_key_name) = false ->
  secrets_get env api_key_name "" = Raises msg ->
  main env w ss
  = (Stopped, ss,
     page_header ++ [StError ("Error initializing Gemini Pro: " +:+ msg)]).
Proof.
  intros Hk Hs.
  assert (Hinit : initialize_gemini env ∅
            = (Done None, ∅,
               [StError ("Error initializing Gemini Pro: " +:+ msg)])).
  { unfold initialize_gemini.
    destruct (getenv env api_key_name) as [k|]; simpl in Hk;
      rewrite ?Hk, Hs; reflexivity. }
  rewrite main_stopped by (unfold init_model; now rewrite Hinit).
  unfold init_events. now rewrite Hinit.
Qed.

(** ** The session across one run *)

(** C3: when the provider call of a run fails, the session after the run
    is the session before it, absent or not; and if the button was pressed
    with a non-empty destination, the call was made once, with the prompt of
    the submission, and its error is shown. *)
Theorem failed_call_keeps_session (env : Env) (w : Widgets)
    (ss : gmap string string) (m : GenerativeModel) (msg : string) :
  init_model env = Some m ->
  generate_content m (prompt_of w) = Raises msg ->
  session_of (main env w ss) = ss
  /\ get (session_of (main env w ss)) = get ss
  /\ (generate_button w = true -> destination w <> "" ->
        external_calls (events_of (main env w ss)) = [prompt_of w]
        /\ In (StError ("Error generating itinerary: " +:+ msg))
             (events_of (main env w ss))).
Proof.
  intros Hm Hg.
  assert (Hs : session_of (main env w ss) = ss).
  { destruct (main_session env w ss) as [H|(m' & reply & Hm' & _ & _ & Hr & _)];
      [exact H|].
    rewrite Hm in Hm'. injection Hm' as <-. congruence. }
  split; [exact Hs|]. split; [now rewrite Hs|].
  intros Hb Hd. split.
  - now rewrite main_calls, Hm, (attempt_failed m w ss msg Hb Hd Hg).
  - rewrite (main_running env w ss m Hm), (attempt_failed m w ss msg Hb Hd Hg).
    unfold events_of. cbn [fst snd].
    do 3 (apply in_or_app; right). apply in_or_app; left.
    right; right; left. reflexivity.
Qed.

Lemma failed_call_keeps_session_witness :
  session_of (main (stub_env (Some "k") (Raises "503")) paris_request rome_session)
  = rome_session
  /\ session_of (main (stub_env (Some "k") (Raises "503")) paris_request ∅) = ∅.
Proof.
  split.
  - apply (failed_call_keeps_session
             (stub_env (Some "k") (Raises "503")) paris_request rome_session
             (stub_model (Raises "503")) "503" eq_refl eq_refl).
  - apply (failed_call_keeps_session
             (stub_env (Some "k") (Raises "503")) paris_request ∅
             (stub_model (Raises "503")) "503" eq_refl eq_refl).
Defined.

(** C5 (as amended): when the provider call of a submission with a
    non-empty destination [D] returns a non-empty text [T], the session read
    after the run gives exactly [T] with label [D], whatever was stored
    before, and the display shows [T] unchanged. *)
Theorem successful_reply_stored (env : Env) (w : Widgets)
    (ss : gmap string string) (m : GenerativeModel) (reply : string) :
  init_model env = Some m ->
  generate_button w = true -> destination w <> "" ->
  generate_content m (prompt_of w) = Returns reply -> reply <> "" ->
  get (session_of (main env w ss))
  = Stored {| text := reply; label := destination w |}
  /\ In (StMarkdown reply) (events_of (main env w ss)).
Proof.
  intros Hm Hb Hd Hg Hr.
  rewrite (main_succeeded env w ss m reply Hm Hb Hd Hg Hr).
  unfold session_of, events_of. cbn [fst snd]. split; [apply get_put|].
  do 4 (apply in_or_app; right). right; right; left. reflexivity.
Qed.

Lemma successful_reply_stored_witness :
  get (session_of
         (main (stub_env (Some "k") (Returns "Day 1: Louvre")) plain_request
            rome_session))
  = Stored {| text := "Day 1: Louvre"; label := "Paris" |}.
Proof.
  apply (successful_reply_stored
           (stub_env (Some "k") (Returns "Day 1: Louvre")) plain_request
           rome_session (stub_model (Returns "Day 1: Louvre")) "Day 1: Louvre"
           eq_refl eq_refl);
    [discriminate | reflexivity | discriminate].
Defined.

(** C5 fails as stated: a call that succeeds with the empty text stores
    nothing, so the read after it does not give that text. *)
Lemma empty_reply_counterexample :
  init_model (stub_env (Some "k") (Returns "")) = Some (stub_model (Returns ""))
  /\ generate_content (stub_model (Returns "")) (prompt_of plain_request)
     = Returns ""
  /\ get (session_of (main (stub_env (Some "k") (Returns "")) plain_request ∅))
     = Absent
  /\ get (session_of (main (stub_env (Some "k") (Returns "")) plain_request ∅))
     <> Stored {| text := ""; label := "Paris" |}.
Proof.
  split; [reflexivity|]. split; [reflexivity|].
  split; [vm_compute; reflexivity | vm_compute; discriminate].
Qed.

(** C6: the example scenario.  The prompt for Paris, France (5 days, 4
    nights, history and food) contains the three literal substrings; with a
    provider stub replying ["Day 1: ..."], the session read after the run
    gives that text with label ["Paris, France"], from any earlier session;
    and the download offered in that run, and in any later refresh, is named
    ["Paris, France_itinerary.txt"]. *)
Theorem paris_scenario (ss : gmap string string) (refresh : Widgets) :
  let env := stub_env (Some "k") (Returns "Day 1: ...") in
  let after := session_of (main env paris_request ss) in
  PyStr.contains "Paris, France" (prompt_of paris_request) = true
  /\ PyStr.contains "5 days and 4 nights" (prompt_of paris_request) = true
  /\ PyStr.contains "history, food" (prompt_of paris_request) = true
  /\ external_calls (events_of (main env paris_request ss))
     = [prompt_of paris_request]
  /\ get after = Stored {| text := "Day 1: ..."; label := "Paris, France" |}
  /\ download_names (events_of (main env paris_request ss))
     = ["Paris, France_itinerary.txt"]
  /\ download_names (events_of (display refresh after))
     = ["Paris, France_itinerary.txt"].
Proof.
  intros env after. subst after.
  assert (Hrun := main_succeeded env paris_request ss
                    (stub_model (Returns "Day 1: ...")) "Day 1: ..." eq_refl
                    eq_refl ltac:(discriminate) eq_refl ltac:(discriminate)).
  rewrite Hrun. unfold session_of, events_of. cbn [fst snd].
  rewrite (display_stored refresh _ _ (get_put _ _)).
  repeat split; try (vm_compute; reflexivity).
  - apply get_put.
  - now destruct (copy_button refresh).
Qed.

(** ** Reading the session *)

(** C8: reading does not write.  The display leaves the session as it
    found it, so the read after a display equals the read before it, and a
    second display of the same session shows what the first did. *)
Theorem get_idempotent (w : Widgets) (ss : gmap string string) :
  session_of (display w ss) = ss
  /\ get (session_of (display w ss)) = get ss
  /\ display w (session_of (display w ss)) = display w ss.
Proof.
  pose proof (display_session w ss) as H. now rewrite H.
Qed.

(** A whole run in which the button is not pressed is such a read. *)
Lemma refresh_keeps_session (env : Env) (w : Widgets)
    (ss : gmap string string) :
  generate_button w = false -> session_of (main env w ss) = ss.
Proof.
  intros Hb.
  destruct (init_model env) as [m|] eqn:Hm.
  - now rewrite (main_running env w ss m Hm), (attempt_idle m w ss Hb).
  - now rewrite (main_stopped env w ss Hm).
Qed.

(** ** Invariants of the reachable sessions *)

Lemma put_text (r : ItineraryResult) (ss : gmap string string) :
  put r ss !! "itinerary" = Some (text r).
Proof.
  unfold put. now rewrite lookup_insert_ne, lookup_insert_eq by discriminate.
Qed.

Lemma put_label (r : ItineraryResult) (ss : gmap string string) :
  put r ss !! "destination" = Some (label r).
Proof. unfold put. now rewrite lookup_insert_eq. Qed.

Lemma main_preserves_paired (env : Env) (w : Widgets)
    (ss : gmap string string) :
  paired ss -> paired (session_of (main env w ss)).
Proof.
  intros Hp.
  destruct (main_session env w ss) as [->|(m & reply & _ & _ & _ & _ & ->)];
    [exact Hp|].
  unfold paired. rewrite put_text, put_label. split; eauto.
Qed.

Lemma main_preserves_nonempty (env : Env) (w : Widgets)
    (ss : gmap string string) :
  ss !! "itinerary" <> Some "" ->
  session_of (main env w ss) !! "itinerary" <> Some "".
Proof.
  intros Hp.
  destruct (main_session env w ss) as [->|(m & reply & _ & Hr & _ & _ & ->)];
    [exact Hp|].
  rewrite put_text. simpl. congruence.
Qed.

Lemma reachable_nonempty (ss : gmap string string) :
  reachable ss -> ss !! "itinerary" <> Some "".
Proof.
  induction 1 as [|env w ss _ IH]; [discriminate|].
  now apply main_preserves_nonempty.
Qed.

Lemma rome_reachable : reachable rome_session.
Proof.
  exact (reachable_run (stub_env (Some "k") (Returns "Day 1: Colosseum"))
           {| destination := "Rome"; days := 3; nights := 2; interests := "";
              generate_button := true; copy_button := false |}
           ∅ reachable_start).
Qed.

(** C9: a provider call that succeeds with the empty text is treated like
    a failed one: the session after the run is the session before it,
    absent or not; and in consequence no reachable session stores the empty
    text. *)
Theorem empty_reply_not_stored :
  (forall (env : Env) (w : Widgets) (ss : gmap string string)
          (m : GenerativeModel),
      init_model env = Some m ->
      generate_content m (prompt_of w) = Returns "" ->
      session_of (main env w ss) = ss
      /\ get (session_of (main env w ss)) = get ss)
  /\ (forall ss : gmap string string,
        reachable ss -> ss !! "itinerary" <> Some "").
Proof.
  split; [|exact reachable_nonempty].
  intros env w ss m Hm Hg.
  assert (Hs : session_of (main env w ss) = ss).
  { destruct (main_session env w ss) as [H|(m' & reply & Hm' & Hr & _ & Hg' & _)];
      [exact H|].
    rewrite Hm in Hm'. injection Hm' as <-. congruence. }
  now rewrite Hs.
Qed.

Lemma empty_reply_not_stored_witness :
  session_of (main (stub_env (Some "k") (Returns "")) plain_request rome_session)
  = rome_session
  /\ session_of (main (stub_env (Some "k") (Returns "")) plain_request ∅) = ∅
  /\ rome_session !! "itinerary" <> Some "".
Proof.
  destruct empty_reply_not_stored as [Hkeep Hne].
  split; [|split].
  - apply (Hkeep (stub_env (Some "k") (Returns "")) plain_request rome_session
             (stub_model (Returns "")) eq_refl eq_refl).
  - apply (Hkeep (stub_env (Some "k") (Returns "")) plain_request ∅
             (stub_model (Returns "")) eq_refl eq_refl).
  - apply Hne, rome_reachable.
Defined.

(** C10: in every session reachable from the empty one by runs of the
    script, the itinerary text and the destination label are stored together
    or not at all; reading such a session never finds a text without its
    label. *)
Theorem reachable_paired (ss : gmap string string) :
  reachable ss ->
  paired ss /\ (forall t, get ss <> Unlabelled t).
Proof.
  intros Hr.
  assert (Hp : paired ss).
  { induction Hr as [|env w ss _ IH].
    - unfold paired. rewrite !lookup_empty. split; intros [? [=]].
    - now apply main_preserves_paired. }
  split; [exact Hp|].
  intros t. unfold get. destruct Hp as [Hp _].
  destruct (ss !! "itinerary") as [t'|]; [|discriminate].
  destruct (Hp (ex_intro _ t' eq_refl)) as [d ->]. discriminate.
Qed.

Lemma reachable_paired_witness :
  paired rome_session
  /\ paired (session_of
               (main (stub_env (Some "k") (Raises "503")) paris_request ∅)).
Proof.
  split.
  - apply (reachable_paired rome_session rome_reachable).
  - apply (reachable_paired _
             (reachable_run (stub_env (Some "k") (Raises "503")) paris_request
                ∅ reachable_start)).
Defined.

(** * Further properties of the script *)

(** ** The template *)

Section Template.
Import PyStr PyStrFacts.

Variables (destination : string) (days nights : Z) (interests : string).

Lemma contains_cons (p s : string) (c : ascii) :
  contains p s = true -> contains p (String c s) = true.
Proof. intros H. simpl. rewrite H. apply orb_true_r. Qed.

Lemma contains_unlines (p l : string) (ls : list string) :
  In l ls -> contains p l = true -> contains p (unlines ls) = true.
Proof.
  intros Hin Hl. induction ls as [|a rest IH]; [contradiction|].
  destruct rest as [|b rest].
  - destruct Hin as [->|[]]. exact Hl.
  - change (unlines (a :: b :: rest))
      with (a +:+ String newline (unlines (b :: rest))).
    destruct Hin as [->|Hin].
    + now apply contains_app_l.
    + apply contains_app_r, contains_cons, IH, Hin.
Qed.

(** X1: whatever is typed, the destination appears in the prompt character
    for character, and so does the duration phrase with the decimal
    numerals of the two numbers. *)
Theorem request_verbatim :
  contains destination (compose_prompt destination days nights interests)
  = true
  /\ contains (of_int days +:+ " days and " +:+ of_int nights +:+ " nights")
       (compose_prompt destination days nights interests) = true.
Proof.
  rewrite compose_prompt_pieces. split.
  - apply (contains_unlines _ ("        Destination: " +:+ destination)).
    + unfold prompt_pieces. simpl. tauto.
    + apply contains_app_r, contains_refl.
  - apply (contains_unlines _ (duration_piece days nights)).
    + unfold prompt_pieces. simpl. tauto.
    + unfold duration_piece. apply contains_app_r, contains_refl.
Qed.

(** X2: the user's text cannot displace the template.  For every
    destination and every interests text, multi-line ones included, the
    prompt opens with the three fixed lines, then has the destination on the
    [Destination:] line (and on further lines if it contains newlines), the
    [Duration:] line, the lines of the interests slot, and closes with the
    fourteen lines of the instruction block. *)
Theorem instruction_block_closes :
  lines (compose_prompt destination days nights interests)
  = [ "";
      "        Create a detailed and personalized travel itinerary for the following trip:";
      "        " ]
    ++ (("        Destination: " +:+ hd "" (lines destination))
          :: tl (lines destination))
    ++ [duration_piece days nights]
    ++ lines ("        " +:+ interests_slot interests)
    ++ instruction_block.
Proof.
  rewrite compose_prompt_pieces, lines_unlines by discriminate.
  unfold prompt_pieces, instruction_block. cbn [map concat].
  rewrite (lines_single _ (duration_single_line days nights)).
  rewrite (lines_prepend "        Destination: " destination eq_refl).
  generalize (lines ("        " +:+ interests_slot interests)); intros sl.
  generalize (tl (lines destination)) (hd "" (lines destination)).
  intros dl d1.
  eval_literals. reflexivity.
Qed.

End Template.

(** ** The numerals *)

Section Numerals.
Import PyStr PyStrFacts.

Lemma parse_of_int (n : Z) : parse_int (of_int n) = Some n.
Proof.
  unfold parse_int, of_int.
  rewrite NilZero.isi.
  - simpl. now rewrite DecimalZ.of_to.
  - destruct n; simpl; try discriminate.
    intros [= H]. now apply DecimalPos.Unsigned.to_uint_nonnil in H.
  - destruct n; simpl; try discriminate.
    intros [= H]. now apply DecimalPos.Unsigned.to_uint_nonnil in H.
Qed.

Lemma of_int_inj (a b : Z) : of_int a = of_int b -> a = b.
Proof.
  intros H. apply (f_equal parse_int) in H.
  rewrite !parse_of_int in H. now injection H.
Qed.

(** Two texts that agree up to a separator which the parts before it
    cannot contain agree part by part. *)
Lemma split_at_separator (P : ascii -> bool) (c : ascii) (a a' r r' : string) :
  all_chars P a = true -> all_chars P a' = true -> P c = false ->
  a +:+ String c r = a' +:+ String c r' -> a = a' /\ r = r'.
Proof.
  intros Ha Ha' Hc. revert a' Ha'.
  induction a as [|x a IH]; intros [|x' a'] Ha'; simpl in *.
  - now intros [= ->].
  - intros [= <- _]. apply andb_prop in Ha' as [Hx _]. congruence.
  - intros [= -> _]. apply andb_prop in Ha as [Hx _]. congruence.
  - intros [= <- H]. apply andb_prop in Ha as [_ Ha].
    apply andb_prop in Ha' as [_ Ha'].
    destruct (IH Ha a' Ha' H) as [-> ->]. now split.
Qed.

(** X3: the numeral written for a number reads back as that number, and
    the [Duration:] line of the prompt determines the two numbers: requests
    that differ in days or nights get different lines. *)
Theorem duration_determines_numbers (days nights days' nights' : Z) :
  duration_piece days nights = duration_piece days' nights' ->
  days = days' /\ nights = nights'
  /\ parse_int (of_int days) = Some days
  /\ parse_int (of_int nights) = Some nights.
Proof.
  unfold duration_piece. intros H.
  apply (inj (String.app "        Duration: ")) in H.
  change (of_int days +:+ String " " ("days and " +:+ of_int nights +:+ " nights")
          = of_int days' +:+ String " " ("days and " +:+ of_int nights' +:+ " nights"))
    in H.
  apply (split_at_separator is_digit_or_minus) in H as [Hd H];
    [|apply of_int_chars..|reflexivity].
  apply (inj (String.app "days and ")) in H.
  change (of_int nights +:+ String " " "nights"
          = of_int nights' +:+ String " " "nights") in H.
  apply (split_at_separator is_digit_or_minus) in H as [Hn _];
    [|apply of_int_chars..|reflexivity].
  apply of_int_inj in Hd, Hn. subst. now rewrite !parse_of_int.
Qed.

End Numerals.

Lemma duration_determines_numbers_witness :
  5%Z = 5%Z /\ 4%Z = 4%Z
  /\ parse_int (PyStr.of_int 5) = Some 5%Z
  /\ parse_int (PyStr.of_int 4) = Some 4%Z.
Proof. apply (duration_determines_numbers 5 4 5 4 eq_refl). Defined.

(** ** Initialisation of the client (lines 37-59) *)

Section Initialisation.
Import PyStr PyStrFacts.

Lemma errors_app (a b : list event) : errors (a ++ b) = errors a ++ errors b.
Proof. apply List.flat_map_app. Qed.

Lemma warnings_app (a b : list event) :
  warnings (a ++ b) = warnings a ++ warnings b.
Proof. apply List.flat_map_app. Qed.

Lemma download_names_app (a b : list event) :
  download_names (a ++ b) = download_names a ++ download_names b.
Proof.
  induction a as [|e a IH]; [reflexivity|].
  destruct e; simpl; now rewrite IH.
Qed.

Variable env : Env.

Lemma initialize_gemini_resolved (ss : gmap string string) :
  initialize_gemini env ss
  = match resolved_key env with
    | Returns k => init_with_key env k ss
    | Raises msg => init_failed msg ss
    end.
Proof.
  unfold initialize_gemini, resolved_key.
  destruct (getenv env api_key_name) as [k|]; [destruct (truthy k)|];
    try destruct (secrets_get env api_key_name ""); reflexivity.
Qed.

(** What [initialize_gemini] does, by the four ways it can go. *)
Lemma init_cases :
  (exists msg, resolved_key env = Raises msg
     /\ init_model env = None
     /\ init_events env = [StError ("Error initializing Gemini Pro: " +:+ msg)])
  \/ (resolved_key env = Returns ""
      /\ init_model env = None
      /\ init_events env = [StError missing_key_error; StInfo missing_key_info])
  \/ (exists k msg, resolved_key env = Returns k /\ k <> ""
        /\ (configure env k = Raises msg
            /\ init_events env
               = [GenaiConfigure k;
                  StError ("Error initializing Gemini Pro: " +:+ msg)]
            \/ (exists u, configure env k = Returns u)
               /\ new_model env model_name = Raises msg
               /\ init_events env
                  = [GenaiConfigure k; GenaiModel model_name;
                     StError ("Error initializing Gemini Pro: " +:+ msg)])
        /\ init_model env = None)
  \/ (exists k m, resolved_key env = Returns k /\ k <> ""
        /\ (exists u, configure env k = Returns u)
        /\ new_model env model_name = Returns m
        /\ init_model env = Some m
        /\ init_events env = [GenaiConfigure k; GenaiModel model_name]).
Proof.
  unfold init_model, init_events. rewrite initialize_gemini_resolved.
  destruct (resolved_key env) as [k|msg]; [|left; now exists msg].
  right. unfold init_with_key.
  destruct k as [|c k]; [left; now repeat split|]. right.
  set (key := String c k). simpl.
  destruct (configure env key) as [u|msg] eqn:Hc.
  - destruct (new_model env model_name) as [m|msg] eqn:Hn.
    + right. exists key, m. repeat split; eauto; discriminate.
    + left. exists key, msg. repeat split; try discriminate.
      right. repeat split; eauto.
  - left. exists key, msg. repeat split; try discriminate. now left.
Qed.

(** X4: a client is obtained exactly when a non-empty key is found, the
    library accepts it and the model handle is built; the handle returned
    is the one the library built. *)
Theorem init_succeeds_iff (m : GenerativeModel) :
  init_model env = Some m
  <-> exists k, resolved_key env = Returns k /\ k <> ""
        /\ (exists u, configure env k = Returns u)
        /\ new_model env model_name = Returns m.
Proof.
  destruct init_cases
    as [(msg & Hk & Hm & _)
       |[(Hk & Hm & _)
        |[(k & msg & Hk & Hne & Hcase & Hm)
         |(k & m' & Hk & Hne & Hc & Hn & Hm & _)]]]; rewrite Hm; split;
    try discriminate.
  - intros (k & Hk' & _). congruence.
  - intros (k & Hk' & Hne & _). congruence.
  - intros (k' & Hk' & _ & [u Hc] & Hn).
    assert (k' = k) as -> by congruence.
    destruct Hcase as [[Hc' _]|(_ & Hn' & _)]; congruence.
  - intros [= <-]. exists k. auto.
  - intros (k' & Hk' & _ & _ & Hn'). congruence.
Qed.

(** X6: [genai.configure] is called at most once, with the resolved key,
    and never with an empty one; when no key is found or the secrets lookup
    raises, it is not called at all. *)
Theorem configure_once :
  configure_calls (init_events env)
  = match resolved_key env with
    | Returns k => if truthy k then [k] else []
    | Raises _ => []
    end.
Proof.
  destruct init_cases
    as [(msg & Hk & _ & He)
       |[(Hk & _ & He)
        |[(k & msg & Hk & Hne%truthy_true & Hcase & _)
         |(k & m' & Hk & Hne%truthy_true & _ & _ & _ & He)]]];
    rewrite Hk, ?Hne; try (rewrite He; reflexivity).
  destruct Hcase as [[_ He]|(_ & _ & He)]; rewrite He; reflexivity.
Qed.

(** X8: a failed initialisation is always reported, once, and a
    successful one shows no error: the number of error boxes of
    [initialize_gemini] is one when it returns [None] and zero otherwise. *)
Theorem init_failure_reported :
  length (errors (init_events env))
  = match init_model env with
    | Some _ => 0
    | None => 1
    end.
Proof.
  destruct init_cases
    as [(msg & _ & Hm & He)
       |[(_ & Hm & He)
        |[(k & msg & _ & _ & Hcase & Hm)
         |(k & m' & _ & _ & _ & _ & Hm & He)]]];
    rewrite Hm; try (rewrite He; reflexivity).
  destruct Hcase as [[_ He]|(_ & _ & He)]; rewrite He; reflexivity.
Qed.

Lemma init_no_warning : warnings (init_events env) = [].
Proof.
  destruct init_cases
    as [(msg & _ & _ & He)
       |[(_ & _ & He)
        |[(k & msg & _ & _ & Hcase & _)
         |(k & m' & _ & _ & _ & _ & _ & He)]]];
    try (rewrite He; reflexivity).
  destruct Hcase as [[_ He]|(_ & _ & He)]; rewrite He; reflexivity.
Qed.

Lemma init_no_download : download_names (init_events env) = [].
Proof.
  destruct init_cases
    as [(msg & _ & _ & He)
       |[(_ & _ & He)
        |[(k & msg & _ & _ & Hcase & _)
         |(k & m' & _ & _ & _ & _ & _ & He)]]];
    try (rewrite He; reflexivity).
  destruct Hcase as [[_ He]|(_ & _ & He)]; rewrite He; reflexivity.
Qed.

Lemma init_ok_no_error (m : GenerativeModel) :
  init_model env = Some m -> errors (init_events env) = [].
Proof.
  intros Hm.
  destruct init_cases
    as [(msg & _ & Hm' & _)
       |[(_ & Hm' & _)
        |[(k & msg & _ & _ & _ & Hm')
         |(k & m' & _ & _ & _ & _ & _ & He)]]];
    try congruence.
  now rewrite He.
Qed.

(** X5: a non-empty environment variable shadows the secrets store.  The
    store is not consulted, so whatever it would answer, a key or an
    exception, the initialisation and the whole run are the same. *)
Theorem env_key_shadows_secrets
    (store : string -> string -> exc string) (w : Widgets)
    (ss : gmap string string) :
  truthy_opt (getenv env api_key_name) = true ->
  let env' := {| getenv := getenv env; secrets_get := store;
                 configure := configure env; new_model := new_model env |} in
  initialize_gemini env' ss = initialize_gemini env ss
  /\ main env' w ss = main env w ss.
Proof.
  intros Hk env'.
  assert (Hinit : forall ss', initialize_gemini env' ss'
                              = initialize_gemini env ss').
  { intros ss'. unfold initialize_gemini, env'. cbn [getenv secrets_get].
    destruct (getenv env api_key_name) as [k|]; [|discriminate].
    simpl in Hk. rewrite Hk. reflexivity. }
  split; [apply Hinit|].
  unfold main, mbind, script_bind, emit. lazy beta iota.
  now rewrite Hinit.
Qed.


End Initialisation.

Lemma init_succeeds_iff_witness :
  init_model (stub_env (Some "k") (Returns "Day 1: ..."))
  = Some (stub_model (Returns "Day 1: ...")).
Proof.
  apply init_succeeds_iff. exists "k".
  split; [reflexivity|]. split; [discriminate|].
  split; [now exists tt | reflexivity].
Defined.

Lemma env_key_shadows_secrets_witness :
  main {| getenv := fun _ => Some "k";
          secrets_get := fun _ _ => Raises "no secrets file";
          configure := fun _ => Returns tt;
          new_model := fun _ => Returns (stub_model (Returns "Day 1: ...")) |}
    paris_request ∅
  = main (stub_env (Some "k") (Returns "Day 1: ...")) paris_request ∅.
Proof.
  apply (env_key_shadows_secrets (stub_env (Some "k") (Returns "Day 1: ..."))
           (fun _ _ => Raises "no secrets file") paris_request ∅ eq_refl).
Defined.


(** ** One run, seen from outside (lines 109-219) *)

Section Run.
Import PyStr PyStrFacts.

Variables (env : Env) (w : Widgets) (ss : gmap string string).

(** The five ways the reaction to the button can go. *)
Lemma attempt_shape (m : GenerativeModel) :
  (generate_button w = false
   /\ generation_attempt m w ss = (Done tt, ss, []))
  \/ (generate_button w = true /\ destination w = ""
      /\ generation_attempt m w ss
         = (Done tt, ss, [StWarning "⚠️ Please enter a destination."]))
  \/ (exists msg, generate_button w = true /\ destination w <> ""
        /\ generate_content m (prompt_of w) = Raises msg
        /\ generation_attempt m w ss
           = (Done tt, ss,
              [spinner w; GenerateContent (prompt_of w);
               StError ("Error generating itinerary: " +:+ msg)]))
  \/ (generate_button w = true /\ destination w <> ""
      /\ generate_content m (prompt_of w) = Returns ""
      /\ generation_attempt m w ss
         = (Done tt, ss, [spinner w; GenerateContent (prompt_of w)]))
  \/ (exists reply, generate_button w = true /\ destination w <> ""
        /\ reply <> ""
        /\ generate_content m (prompt_of w) = Returns reply
        /\ generation_attempt m w ss
           = (Done tt, put {| text := reply; label := destination w |} ss,
              [spinner w; GenerateContent (prompt_of w)])).
Proof.
  destruct (generate_button w) eqn:Hb;
    [|left; split; [reflexivity | now apply attempt_idle]].
  right.
  destruct (String.eqb_spec (destination w) "") as [Hd|Hd];
    [left; repeat split; [exact Hd | now apply attempt_rejected]|].
  right.
  destruct (generate_content m (prompt_of w)) as [reply|msg] eqn:Hm.
  - right. destruct (String.eqb_spec reply "") as [->|Hr].
    + left. repeat split; [exact Hd | now apply attempt_empty_reply].
    + right. exists reply. repeat split; try assumption.
      now apply attempt_succeeded.
  - left. exists msg. repeat split; [exact Hd | now apply attempt_failed].
Qed.


Lemma display_shown (s : gmap string string) :
  events_of (display w s) = shown (copy_button w) (get s).
Proof.
  destruct (get s) as [|r|t] eqn:Hg.
  - now rewrite (display_absent w s Hg).
  - now rewrite (display_stored w s r Hg).
  - now rewrite (display_unlabelled w s t Hg).
Qed.


Lemma shown_no_error (copy : bool) (v : session_view) :
  errors (shown copy v) = [] /\ warnings (shown copy v) = [].
Proof. destruct v as [|r|t], copy; split; reflexivity. Qed.

Lemma shown_download (copy : bool) (v : session_view) :
  download_names (shown copy v)
  = match v with
    | Stored r => [label r +:+ "_itinerary.txt"]
    | _ => []
    end.
Proof. destruct v as [|r|t], copy; reflexivity. Qed.

(** The events of a run with a client. *)
Lemma main_events (m : GenerativeModel) :
  init_model env = Some m ->
  events_of (main env w ss)
  = page_header ++ init_events env ++ sidebar_events
      ++ events_of (generation_attempt m w ss)
      ++ shown (copy_button w) (get (session_of (main env w ss))).
Proof.
  intros Hm. rewrite (main_running env w ss m Hm).
  unfold events_of at 1, session_of at 2. cbn [fst snd].
  now rewrite display_shown.
Qed.

(** X9: the provider is called exactly when a client was obtained, the
    button was pressed and the destination is not the empty string; then it
    is called once, with the prompt of the submitted form.  In every other
    run it is not called. *)
Theorem provider_called_exactly_when :
  external_calls (events_of (main env w ss))
  = match init_model env with
    | Some _ =>
        if generate_button w && truthy (destination w)
        then [prompt_of w] else []
    | None => []
    end.
Proof.
  rewrite main_calls. destruct (init_model env) as [m|]; [|reflexivity].
  destruct (attempt_shape m)
    as [[Hb ->]
       |[(Hb & Hd & ->)
        |[(msg & Hb & Hd%truthy_true & _ & ->)
         |[(Hb & Hd%truthy_true & _ & ->)
          |(reply & Hb & Hd%truthy_true & _ & _ & ->)]]]];
    rewrite Hb, ?Hd; reflexivity.
Qed.

(** X10: the warning to enter a destination is shown exactly when a client
    was obtained and the button was pressed on an empty destination, and
    then once. *)
Theorem warning_exactly_when :
  warnings (events_of (main env w ss))
  = match init_model env with
    | Some _ =>
        if generate_button w && negb (truthy (destination w))
        then ["⚠️ Please enter a destination."] else []
    | None => []
    end.
Proof.
  destruct (init_model env) as [m|] eqn:Hm.
  - rewrite (main_events m Hm), !warnings_app, init_no_warning.
    rewrite (proj2 (shown_no_error _ _)).
    destruct (attempt_shape m)
      as [[Hb ->]
         |[(Hb & Hd & ->)
          |[(msg & Hb & Hd%truthy_true & _ & ->)
           |[(Hb & Hd%truthy_true & _ & ->)
            |(reply & Hb & Hd%truthy_true & _ & _ & ->)]]]];
      rewrite Hb, ?Hd; reflexivity.
  - rewrite (main_stopped env w ss Hm). unfold events_of. cbn [snd].
    now rewrite warnings_app, init_no_warning.
Qed.


(** X12: a session holding a text without a label makes the display raise
    [KeyError] on its first read of the label (line 177): a refresh with a
    client ends with that exception, after the sidebar and before anything
    of the text is shown. *)
Theorem unlabelled_session_crashes (m : GenerativeModel) (t : string) :
  get ss = Unlabelled t -> init_model env = Some m ->
  generate_button w = false ->
  main env w ss
  = (Crashed "KeyError: destination", ss,
     page_header ++ init_events env ++ sidebar_events).
Proof.
  intros Hg Hm Hb.
  rewrite (main_running env w ss m Hm), (attempt_idle m w ss Hb).
  unfold session_of, events_of, value_of. cbn [fst snd].
  rewrite (display_unlabelled w ss t Hg). cbn [fst snd].
  now rewrite !app_nil_r.
Qed.

(** X13: a run writes no key of the session other than the two of the
    result, and removes none: every other key reads as before, and whatever
    was present is still present. *)
Theorem only_result_keys_written (k : string) :
  (k <> "itinerary" -> k <> "destination" ->
     session_of (main env w ss) !! k = ss !! k)
  /\ (is_Some (ss !! k) -> is_Some (session_of (main env w ss) !! k)).
Proof.
  destruct (main_session env w ss) as [->|(m & reply & _ & _ & _ & _ & ->)];
    [now split|].
  unfold put. split.
  - intros Hi Hd. now rewrite !lookup_insert_ne.
  - intros Hk.
    destruct (decide (k = "destination")) as [->|Hd];
      [rewrite lookup_insert_eq; eauto|].
    rewrite lookup_insert_ne by congruence.
    destruct (decide (k = "itinerary")) as [->|Hi];
      [rewrite lookup_insert_eq; eauto|].
    now rewrite lookup_insert_ne by congruence.
Qed.

(** X15: from a session whose two keys go together, a run offers a
    download exactly when a client was obtained and the session holds a
    result at the end of the run; the file is then named after the label
    stored at that moment, followed by [_itinerary.txt]. *)
Theorem download_named_after_label :
  paired ss ->
  download_names (events_of (main env w ss))
  = match init_model env, get (session_of (main env w ss)) with
    | Some _, Stored r => [label r +:+ "_itinerary.txt"]
    | _, _ => []
    end.
Proof.
  intros Hp. destruct (init_model env) as [m|] eqn:Hm.
  - rewrite (main_events m Hm), !download_names_app, init_no_download.
    rewrite shown_download.
    assert (Ha : download_names (events_of (generation_attempt m w ss)) = []).
    { destruct (attempt_shape m)
        as [[_ ->]|[(_ & _ & ->)|[(msg & _ & _ & _ & ->)
           |[(_ & _ & _ & ->)|(reply & _ & _ & _ & _ & ->)]]]]; reflexivity. }
    rewrite Ha. reflexivity.
  - rewrite (main_stopped env w ss Hm). unfold events_of. cbn [snd].
    now rewrite download_names_app, init_no_download.
Qed.

(** X17: with a client, the error boxes of a run are those of the
    provider call: one, carrying the exception's message, when the call was
    made and raised; none otherwise.  In particular a call that returns the
    empty text is dropped without any message. *)
Theorem errors_exactly_when (m : GenerativeModel) :
  init_model env = Some m ->
  errors (events_of (main env w ss))
  = if generate_button w && truthy (destination w)
    then match generate_content m (prompt_of w) with
         | Raises msg => ["Error generating itinerary: " +:+ msg]
         | Returns _ => []
         end
    else [].
Proof.
  intros Hm.
  rewrite (main_events m Hm), !errors_app, (init_ok_no_error env m Hm).
  rewrite (proj1 (shown_no_error _ _)).
  destruct (attempt_shape m)
    as [[Hb ->]
       |[(Hb & Hd & ->)
        |[(msg & Hb & Hd%truthy_true & Hg & ->)
         |[(Hb & Hd%truthy_true & Hg & ->)
          |(reply & Hb & Hd%truthy_true & _ & Hg & ->)]]]];
    rewrite Hb, ?Hd, ?Hg; reflexivity.
Qed.

(** X18: after a failed provider call the page still shows the result
    stored before, under its own label, below the error: the events of the
    run are the header, the initialisation, the sidebar, the spinner, the
    call, the error and the display of the old result. *)
Theorem failed_attempt_shows_previous (m : GenerativeModel) (msg : string)
    (r : ItineraryResult) :
  init_model env = Some m ->
  generate_button w = true -> destination w <> "" ->
  generate_content m (prompt_of w) = Raises msg ->
  get ss = Stored r ->
  main env w ss
  = (Done tt, ss,
     page_header ++ init_events env ++ sidebar_events
       ++ [spinner w; GenerateContent (prompt_of w);
           StError ("Error generating itinerary: " +:+ msg)]
       ++ stored_events (copy_button w) r).
Proof.
  intros Hm Hb Hd Hg Hs.
  rewrite (main_running env w ss m Hm), (attempt_failed m w ss msg Hb Hd Hg).
  unfold session_of, events_of, value_of. cbn [fst snd].
  now rewrite (display_stored w ss r Hs).
Qed.

(** X19: a run with a client in which the button is not pressed changes
    nothing in the session and shows it as it is, whatever is typed into the
    form: after the header, the initialisation and the sidebar comes the
    display of the stored result, or the welcome screen when nothing is
    stored, and the run ends normally; on a session holding a text without
    a label the run ends after the sidebar with the [KeyError] of the first
    read of the label. *)
Theorem idle_run_shows_session (m : GenerativeModel) :
  init_model env = Some m -> generate_button w = false ->
  main env w ss
  = (match get ss with
     | Unlabelled _ => Crashed "KeyError: destination"
     | _ => Done tt
     end,
     ss,
     page_header ++ init_events env ++ sidebar_events
       ++ shown (copy_button w) (get ss)).
Proof.
  intros Hm Hb.
  rewrite (main_running env w ss m Hm), (attempt_idle m w ss Hb).
  unfold session_of, events_of, value_of. cbn [fst snd].
  destruct (get ss) as [|r|t] eqn:Hg.
  - now rewrite (display_absent w ss Hg).
  - now rewrite (display_stored w ss r Hg).
  - now rewrite (display_unlabelled w ss t Hg).
Qed.

End Run.

(** ** Successive runs *)

Lemma put_put (r1 r2 : ItineraryResult) (ss : gmap string string) :
  put r2 (put r1 ss) = put r2 ss.
Proof.
  unfold put. apply map_eq. intros k.
  rewrite !lookup_insert. repeat case_decide; congruence.
Qed.

(** X14: a later successful generation overwrites the earlier one, it does
    not merge with it.  After two successful submissions in a row the
    session is what the second alone would have left: the first result
    leaves no trace, and the read gives the second text under the second
    destination. *)
Theorem resubmission_overwrites (env1 env2 : Env) (w1 w2 : Widgets)
    (ss : gmap string string) (m1 m2 : GenerativeModel) (t1 t2 : string) :
  init_model env1 = Some m1 -> generate_button w1 = true ->
  destination w1 <> "" ->
  generate_content m1 (prompt_of w1) = Returns t1 -> t1 <> "" ->
  init_model env2 = Some m2 -> generate_button w2 = true ->
  destination w2 <> "" ->
  generate_content m2 (prompt_of w2) = Returns t2 -> t2 <> "" ->
  session_of (main env2 w2 (session_of (main env1 w1 ss)))
  = session_of (main env2 w2 ss)
  /\ get (session_of (main env2 w2 (session_of (main env1 w1 ss))))
     = Stored {| text := t2; label := destination w2 |}.
Proof.
  intros Hm1 Hb1 Hd1 Hg1 Ht1 Hm2 Hb2 Hd2 Hg2 Ht2.
  rewrite (main_succeeded env1 w1 ss m1 t1 Hm1 Hb1 Hd1 Hg1 Ht1).
  unfold session_of at 2. cbn [fst snd].
  rewrite !(main_succeeded env2 w2 _ m2 t2 Hm2 Hb2 Hd2 Hg2 Ht2).
  unfold session_of. cbn [fst snd].
  split; [apply put_put | apply get_put].
Qed.

Lemma resubmission_overwrites_witness :
  session_of
    (main (stub_env (Some "k") (Returns "Day 1: Louvre")) plain_request
       (session_of
          (main (stub_env (Some "k") (Returns "Day 1: ...")) paris_request ∅)))
  = session_of
      (main (stub_env (Some "k") (Returns "Day 1: Louvre")) plain_request ∅).
Proof.
  apply (resubmission_overwrites
           (stub_env (Some "k") (Returns "Day 1: ..."))
           (stub_env (Some "k") (Returns "Day 1: Louvre"))
           paris_request plain_request ∅
           (stub_model (Returns "Day 1: ..."))
           (stub_model (Returns "Day 1: Louvre"))
           "Day 1: ..." "Day 1: Louvre");
    try reflexivity; discriminate.
Defined.

Lemma main_preserves_label_nonempty (env : Env) (w : Widgets)
    (ss : gmap string string) :
  ss !! "destination" <> Some "" ->
  session_of (main env w ss) !! "destination" <> Some "".
Proof.
  intros Hp.
  destruct (main_session env w ss) as [->|(m & reply & _ & _ & Hd & _ & ->)];
    [exact Hp|].
  rewrite put_label. simpl. congruence.
Qed.

Lemma reachable_label_nonempty (ss : gmap string string) :
  reachable ss -> ss !! "destination" <> Some "".
Proof.
  induction 1 as [|env w ss _ IH]; [discriminate|].
  now apply main_preserves_label_nonempty.
Qed.

Lemma string_length_app (a b : string) :
  String.length (a +:+ b) = String.length a + String.length b.
Proof. induction a as [|c a IH]; simpl; [reflexivity | now rewrite IH]. Qed.

(** X16: in every session the script can reach, a stored result has a
    non-empty text and a non-empty label; the file offered for download is
    therefore never named [_itinerary.txt] alone. *)
Theorem stored_fields_nonempty (ss : gmap string string) (r : ItineraryResult) :
  reachable ss -> get ss = Stored r ->
  text r <> "" /\ label r <> ""
  /\ label r +:+ "_itinerary.txt" <> "_itinerary.txt".
Proof.
  intros Hr Hg.
  pose proof (reachable_nonempty ss Hr) as Ht.
  pose proof (reachable_label_nonempty ss Hr) as Hl.
  unfold get in Hg.
  destruct (ss !! "itinerary") as [t|]; [|discriminate].
  destruct (ss !! "destination") as [d|]; [|discriminate].
  injection Hg as <-. simpl.
  assert (Hd : d <> "") by congruence.
  repeat split; [congruence | exact Hd |].
  intros H. apply Hd.
  apply (f_equal String.length) in H.
  rewrite string_length_app in H. simpl in H.
  destruct d; [reflexivity | simpl in H; lia].
Qed.

Lemma stored_fields_nonempty_witness :
  "Day 1: Colosseum" <> "" /\ "Rome" <> ""
  /\ "Rome" +:+ "_itinerary.txt" <> "_itinerary.txt".
Proof.
  apply (stored_fields_nonempty rome_session
           {| text := "Day 1: Colosseum"; label := "Rome" |} rome_reachable
           eq_refl).
Defined.

(** ** Runs at concrete inputs *)


Lemma unlabelled_session_crashes_witness :
  value_of
    (main (stub_env (Some "k") (Returns "Day 1: ...")) idle_request
       unlabelled_session)
  = Crashed "KeyError: destination".
Proof.
  rewrite (unlabelled_session_crashes
             (stub_env (Some "k") (Returns "Day 1: ...")) idle_request
             unlabelled_session (stub_model (Returns "Day 1: ..."))
             "Day 1: Colosseum" eq_refl eq_refl eq_refl).
  reflexivity.
Defined.

Lemma only_result_keys_written_witness :
  session_of
    (main (stub_env (Some "k") (Returns "Day 1: ...")) paris_request
       {[ "theme" := "dark" ]}) !! "theme"
  = Some "dark".
Proof.
  rewrite (proj1 (only_result_keys_written
                    (stub_env (Some "k") (Returns "Day 1: ...")) paris_request
                    {[ "theme" := "dark" ]} "theme"));
    [reflexivity | discriminate | discriminate].
Defined.

Lemma download_named_after_label_witness :
  download_names
    (events_of
       (main (stub_env (Some "k") (Raises "503")) paris_request rome_session))
  = ["Rome_itinerary.txt"].
Proof.
  rewrite (download_named_after_label (stub_env (Some "k") (Raises "503"))
             paris_request rome_session).
  - reflexivity.
  - unfold paired, rome_session. rewrite put_text, put_label. split; eauto.
Defined.

Lemma errors_exactly_when_witness :
  errors
    (events_of (main (stub_env (Some "k") (Returns "")) plain_request ∅))
  = []
  /\ errors
       (events_of (main (stub_env (Some "k") (Raises "503")) plain_request ∅))
     = ["Error generating itinerary: 503"].
Proof.
  split.
  - rewrite (errors_exactly_when (stub_env (Some "k") (Returns ""))
               plain_request ∅ (stub_model (Returns "")) eq_refl).
    reflexivity.
  - rewrite (errors_exactly_when (stub_env (Some "k") (Raises "503"))
               plain_request ∅ (stub_model (Raises "503")) eq_refl).
    reflexivity.
Defined.

Lemma failed_attempt_shows_previous_witness :
  download_names
    (events_of
       (main (stub_env (Some "k") (Raises "503")) paris_request rome_session))
  = ["Rome_itinerary.txt"]
  /\ session_of
       (main (stub_env (Some "k") (Raises "503")) paris_request rome_session)
     = rome_session.
Proof.
  rewrite (failed_attempt_shows_previous
             (stub_env (Some "k") (Raises "503")) paris_request rome_session
             (stub_model (Raises "503")) "503"
             {| text := "Day 1: Colosseum"; label := "Rome" |}
             eq_refl eq_refl ltac:(discriminate) eq_refl eq_refl).
  split; reflexivity.
Defined.

Lemma idle_run_shows_session_witness :
  main (stub_env (Some "k") (Returns "Day 1: ...")) idle_request rome_session
  = (Done tt, rome_session,
     page_header ++ init_events (stub_env (Some "k") (Returns "Day 1: ..."))
       ++ sidebar_events
       ++ stored_events true {| text := "Day 1: Colosseum"; label := "Rome" |})
  /\ value_of
       (main (stub_env (Some "k") (Returns "Day 1: ...")) idle_request
          unlabelled_session)
     = Crashed "KeyError: destination".
Proof.
  split.
  - rewrite (idle_run_shows_session
               (stub_env (Some "k") (Returns "Day 1: ...")) idle_request
               rome_session (stub_model (Returns "Day 1: ...")) eq_refl eq_refl).
    reflexivity.
  - rewrite (idle_run_shows_session
               (stub_env (Some "k") (Returns "Day 1: ...")) idle_request
               unlabelled_session (stub_model (Returns "Day 1: ..."))
               eq_refl eq_refl).
    reflexivity.
Defined.
